(** * pkg/tls: key / CSR builder and certificate expiry check

    A shallow embedding of [pkg/tls/tls.go].  The package is glue code over
    the Go standard library ([net], [encoding/pem], [crypto/x509],
    [crypto/rsa], [time]) and the Kubernetes certificates API types.  The
    functions of the package are transcribed below; the library entry points
    they call are the fields of the class [GoLib], so that every theorem
    about the package holds whatever those entry points compute; where a
    property rests on what the library does, that is a stated condition. *)

From Stdlib Require Import ZArith Zcong Lia Ascii String.
From stdpp Require Import base numbers list strings.

Open Scope Z_scope.

(** ** Go values *)

(** [[]byte]. *)
Abbreviation bytes := (list Byte.byte).

(** A Go [error], identified with the text its [Error()] method returns. *)
Definition error := string.

(** The result of a Go function returning [(T, error)]. *)
Inductive result (A : Type) : Type :=
| Ok (a : A)
| Err (e : error).
Arguments Ok {A} a.
Arguments Err {A} e.

(** The outcome of a call that has no error result but may panic. *)
Inductive outcome (A : Type) : Type :=
| Returns (a : A)
| Panics.
Arguments Returns {A} a.
Arguments Panics {A}.

(** [errors.New]. *)
Definition errors_New (text : string) : error := text.

(** ** package time

    A [time.Time] is an instant with nanosecond resolution.  Its range (64-bit
    seconds) is wider than that of a [Duration], so instants are unbounded
    integers counting nanoseconds, while a [Duration] is a 64-bit count of
    nanoseconds. *)
Module time.

Definition Time := Z.
Definition Duration := Z.

Definition minDuration : Duration := - 2 ^ 63.
Definition maxDuration : Duration := 2 ^ 63 - 1.

Definition Nanosecond : Duration := 1.
Definition Microsecond : Duration := 1000 * Nanosecond.
Definition Millisecond : Duration := 1000 * Microsecond.
Definition Second : Duration := 1000 * Millisecond.
Definition Minute : Duration := 60 * Second.
Definition Hour : Duration := 60 * Minute.

(** [t.Sub(u)]: the duration [t - u]; when it does not fit a [Duration]
    the nearest of [minDuration] and [maxDuration] is returned.  Neither a
    parsed [NotAfter] nor a caller supplied instant is compared on the
    monotonic clock, so the wall clock difference is the one taken. *)
Definition Sub (t u : Time) : Duration :=
  let d := t - u in
  if d <? minDuration then minDuration
  else if maxDuration <? d then maxDuration
  else d.

End time.

(** ** Library types used by the package

    One module per Go package, so that the names of the source survive. *)

Module net.
(** [net.IP]: the bytes of an address. *)
Abbreviation IP := (list Byte.byte).
End net.

Module rsa.
(** [rsa.PrivateKey], behind a non-nil pointer. *)
Record PrivateKey : Type := mkPrivateKey {
  N : Z;
  E : Z;
  D : Z;
  Primes : list Z
}.
End rsa.

Module pem.
(** [pem.Block]. *)
Record Block : Type := mkBlock {
  Type_ : string;
  Headers : list (string * string);
  Bytes : bytes
}.
End pem.

Module pkix.
(** [pkix.Name]; only the common name is ever set by the package. *)
Record Name : Type := mkName {
  CommonName : string
}.
End pkix.

Module x509.
(** [x509.SignatureAlgorithm]. *)
Inductive SignatureAlgorithm : Type :=
| UnknownSignatureAlgorithm
| MD2WithRSA | MD5WithRSA | SHA1WithRSA
| SHA256WithRSA | SHA384WithRSA | SHA512WithRSA
| DSAWithSHA1 | DSAWithSHA256
| ECDSAWithSHA1 | ECDSAWithSHA256 | ECDSAWithSHA384 | ECDSAWithSHA512
| SHA256WithRSAPSS | SHA384WithRSAPSS | SHA512WithRSAPSS
| PureEd25519.

(** [x509.CertificateRequest], restricted to the fields the package fills
    in (the others keep their zero value). *)
Record CertificateRequest : Type := mkCertificateRequest {
  Subject : pkix.Name;
  SignatureAlgorithm_ : SignatureAlgorithm;
  DNSNames : list string;
  IPAddresses : list net.IP
}.

(** [x509.Certificate], restricted to the field the package reads. *)
Record Certificate : Type := mkCertificate {
  NotAfter : time.Time
}.
End x509.

Module metav1.
(** [metav1.TypeMeta] and [metav1.ObjectMeta], restricted to the fields
    the package fills in. *)
Record TypeMeta : Type := mkTypeMeta {
  APIVersion : string;
  Kind : string
}.

Record ObjectMeta : Type := mkObjectMeta {
  Name : string
}.
End metav1.

(** [k8s.io/api/certificates/v1beta1]. *)
Module certificates.
Inductive KeyUsage : Type :=
| UsageSigning | UsageDigitalSignature | UsageContentCommitment
| UsageKeyEncipherment | UsageKeyAgreement | UsageDataEncipherment
| UsageCertSign | UsageCRLSign | UsageEncipherOnly | UsageDecipherOnly
| UsageAny | UsageServerAuth | UsageClientAuth | UsageCodeSigning
| UsageEmailProtection | UsageSMIME | UsageIPsecEndSystem | UsageIPsecTunnel
| UsageIPsecUser | UsageTimestamping | UsageOCSPSigning | UsageMicrosoftSGC
| UsageNetscapeSGC.

(** The string a [KeyUsage] constant stands for. *)
Definition KeyUsage_string (u : KeyUsage) : string :=
  match u with
  | UsageSigning => "signing"
  | UsageDigitalSignature => "digital signature"
  | UsageContentCommitment => "content commitment"
  | UsageKeyEncipherment => "key encipherment"
  | UsageKeyAgreement => "key agreement"
  | UsageDataEncipherment => "data encipherment"
  | UsageCertSign => "cert sign"
  | UsageCRLSign => "crl sign"
  | UsageEncipherOnly => "encipher only"
  | UsageDecipherOnly => "decipher only"
  | UsageAny => "any"
  | UsageServerAuth => "server auth"
  | UsageClientAuth => "client auth"
  | UsageCodeSigning => "code signing"
  | UsageEmailProtection => "email protection"
  | UsageSMIME => "s/mime"
  | UsageIPsecEndSystem => "ipsec end system"
  | UsageIPsecTunnel => "ipsec tunnel"
  | UsageIPsecUser => "ipsec user"
  | UsageTimestamping => "timestamping"
  | UsageOCSPSigning => "ocsp signing"
  | UsageMicrosoftSGC => "microsoft sgc"
  | UsageNetscapeSGC => "netscape sgc"
  end.

Record CertificateSigningRequestSpec : Type := mkCertificateSigningRequestSpec {
  Request : bytes;
  Groups : list string;
  Usages : list KeyUsage
}.

Record CertificateSigningRequest : Type := mkCertificateSigningRequest {
  TypeMeta : metav1.TypeMeta;
  ObjectMeta : metav1.ObjectMeta;
  Spec : CertificateSigningRequestSpec
}.
End certificates.

(** Equality of library values is decidable. *)
#[global] Instance byte_eq_dec : EqDecision Byte.byte := Byte.byte_eq_dec.

#[global] Instance PrivateKey_eq_dec : EqDecision rsa.PrivateKey.
Proof. solve_decision. Defined.

#[global] Instance Name_eq_dec : EqDecision pkix.Name.
Proof. solve_decision. Defined.

#[global] Instance SignatureAlgorithm_eq_dec : EqDecision x509.SignatureAlgorithm.
Proof. solve_decision. Defined.

#[global] Instance CertificateRequest_eq_dec : EqDecision x509.CertificateRequest.
Proof. solve_decision. Defined.

(** The bytes an [io.Reader] such as [rand.Reader] will deliver. *)
Definition Reader := list Byte.byte.

(** ** The library entry points the package calls *)
Class GoLib : Type := {
  (** [net.ParseIP]: the address a literal denotes, [None] for Go's nil. *)
  net_ParseIP : string -> option net.IP;
  (** [x509.MarshalPKCS1PrivateKey]: the key is passed by pointer, [None]
      for nil, and the call panics on a key it cannot encode. *)
  x509_MarshalPKCS1PrivateKey : option rsa.PrivateKey -> outcome bytes;
  (** [pem.EncodeToMemory]. *)
  pem_EncodeToMemory : pem.Block -> bytes;
  (** [pem.Decode]: the first block found, if any, and the remaining input. *)
  pem_Decode : bytes -> option pem.Block * bytes;
  (** [x509.ParseCertificate]. *)
  x509_ParseCertificate : bytes -> result x509.Certificate;
  (** [x509.CreateCertificateRequest]. *)
  x509_CreateCertificateRequest :
    Reader -> x509.CertificateRequest -> rsa.PrivateKey -> result bytes
}.

(** ** pkg/tls/tls.go *)

(** Properties of TLS certificate which should be issued for webhook server. *)
Record TlsCertificateProps : Type := mkTlsCertificateProps {
  Service : string;
  Namespace : string;
  ApiServerHost : string
}.

(** The pair of TLS certificate corresponding private key, both in PEM format. *)
Record TlsPemPair : Type := mkTlsPemPair {
  Certificate : bytes;
  PrivateKey : bytes
}.

(** The certificate is valid for a year, but it is updated earlier:
    [time.Hour * 24 * 30 * 6]. *)
Definition timeReserveBeforeCertificateExpiration : time.Duration :=
  time.Hour * 24 * 30 * 6.

(** The generated service name should be the common name for TLS certificate. *)
Definition GenerateInClusterServiceName (props : TlsCertificateProps) : string :=
  props.(Service) +:+ "." +:+ props.(Namespace) +:+ ".svc".

Section Package.
Context `{lib : GoLib}.

(** Creates PEM block from private key object.  The block is built first,
    so a panic of the encoder of the key is the outcome of the call. *)
Definition TLSPrivateKeyToPem (rsaKey : option rsa.PrivateKey)
  : outcome bytes :=
  match x509_MarshalPKCS1PrivateKey rsaKey with
  | Panics => Panics
  | Returns der =>
      let privateKey :=
        {| pem.Type_ := "PRIVATE KEY";
           pem.Headers := [];
           pem.Bytes := der |} in
      Returns (pem_EncodeToMemory privateKey)
  end.

(** Creates PEM block from raw certificate request. *)
Definition certificateRequestToPem (csrRaw : bytes) : bytes :=
  let csrBlock :=
    {| pem.Type_ := "CERTIFICATE REQUEST";
       pem.Headers := [];
       pem.Bytes := csrRaw |} in
  pem_EncodeToMemory csrBlock.

(** The [dnsNames] slice of [CertificateGenerateRequest] once the three
    indexed stores into [make([]string, 3)] are done. *)
Definition serviceDNSNames (props : TlsCertificateProps) : list string :=
  let dnsNames := replicate 3 "" in
  let dnsNames := <[0%nat := props.(Service)]> dnsNames in
  let dnsNames :=
    <[1%nat := props.(Service) +:+ "." +:+ props.(Namespace)]> dnsNames in
  let commonName := GenerateInClusterServiceName props in
  <[2%nat := commonName]> dnsNames.

(** The [csrTemplate] of [CertificateGenerateRequest]: everything the
    function computes before it calls [x509.CreateCertificateRequest]. *)
Definition csrTemplate (props : TlsCertificateProps) (fqdncn : bool)
  : x509.CertificateRequest :=
  let dnsNames := serviceDNSNames props in
  let commonName := GenerateInClusterServiceName props in
  let csCommonName := if fqdncn then commonName else props.(Service) in
  let ips : list net.IP := [] in
  let apiServerIP := net_ParseIP props.(ApiServerHost) in
  let '(ips, dnsNames) :=
    match apiServerIP with
    | Some apiServerIP => (ips ++ [apiServerIP], dnsNames)
    | None => (ips, dnsNames ++ [props.(ApiServerHost)])
    end in
  {| x509.Subject := {| pkix.CommonName := csCommonName |};
     x509.SignatureAlgorithm_ := x509.SHA256WithRSA;
     x509.DNSNames := dnsNames;
     x509.IPAddresses := ips |}.

(** Generates raw certificate signing request.  [rand] is what
    [rand.Reader] delivers during the call. *)
Definition CertificateGenerateRequest (rand : Reader)
    (privateKey : rsa.PrivateKey) (props : TlsCertificateProps)
    (fqdncn : bool)
  : result certificates.CertificateSigningRequest :=
  match x509_CreateCertificateRequest rand (csrTemplate props fqdncn)
          privateKey with
  | Err err => Err err
  | Ok csrBytes =>
      Ok {| certificates.TypeMeta :=
              {| metav1.APIVersion := "certificates.k8s.io/v1beta1";
                 metav1.Kind := "CertificateSigningRequest" |};
            certificates.ObjectMeta :=
              {| metav1.Name :=
                   props.(Service) +:+ "." +:+ props.(Namespace)
                     +:+ ".cert-request" |};
            certificates.Spec :=
              {| certificates.Request := certificateRequestToPem csrBytes;
                 certificates.Groups :=
                   ["system:masters"; "system:authenticated"];
                 certificates.Usages :=
                   [certificates.UsageDigitalSignature;
                    certificates.UsageKeyEncipherment;
                    certificates.UsageServerAuth;
                    certificates.UsageClientAuth] |} |}
  end.

(** Gets NotAfter property from raw certificate. *)
Definition tlsCertificateGetExpirationDate (certData : bytes)
  : result time.Time :=
  let '(block, _) := pem_Decode certData in
  match block with
  | None => Err (errors_New "Failed to decode PEM")
  | Some block =>
      match x509_ParseCertificate block.(pem.Bytes) with
      | Err err =>
          Err (errors_New ("Failed to parse certificate: %v" +:+ err))
      | Ok cert => Ok cert.(x509.NotAfter)
      end
  end.

(** Checks if TLS pair has expired and needs to be updated.  [now] is the
    value of [time.Now()] during the call; [None] is the nil pointer. *)
Definition IsTLSPairShouldBeUpdated (now : time.Time)
    (tlsPair : option TlsPemPair) : bool :=
  match tlsPair with
  | None => true
  | Some tlsPair =>
      match tlsCertificateGetExpirationDate tlsPair.(Certificate) with
      | Err _ => true
      | Ok expirationDate =>
          time.Sub expirationDate now
            <? timeReserveBeforeCertificateExpiration
      end
  end.

End Package.

(** ** Keys

    A valid RSA private key: at least two primes, each above one, whose
    product is the modulus, a public exponent that fits 31 bits, and a
    private exponent that inverts it modulo each prime less one.  As in
    the [Validate] method of [rsa.PrivateKey], the primes are not tested
    for primality. *)
Definition rsa_valid (key : rsa.PrivateKey) : bool :=
  bool_decide (2 <= length key.(rsa.Primes))%nat
  && forallb (fun prime => 1 <? prime) key.(rsa.Primes)
  && (foldr Z.mul 1 key.(rsa.Primes) =? key.(rsa.N))
  && (2 <=? key.(rsa.E)) && (key.(rsa.E) <? 2 ^ 31)
  && (0 <? key.(rsa.D))
  && forallb (fun prime => key.(rsa.E) * key.(rsa.D) mod (prime - 1) =? 1)
       key.(rsa.Primes).

(** The block [TLSPrivateKeyToPem] encodes. *)
Definition privateKeyBlock (der : bytes) : pem.Block :=
  {| pem.Type_ := "PRIVATE KEY"; pem.Headers := []; pem.Bytes := der |}.

(** What the package relies on in the library: the encoder of keys
    returns on every valid key, and a [PRIVATE KEY] block without headers
    that was encoded is decoded to itself, with nothing left over. *)
Definition marshal_returns_on_valid_keys `{GoLib} : Prop :=
  forall key, rsa_valid key = true ->
    exists der, x509_MarshalPKCS1PrivateKey (Some key) = Returns der.

Definition private_key_block_round_trip `{GoLib} : Prop :=
  forall der : bytes,
    pem_Decode (pem_EncodeToMemory (privateKeyBlock der))
    = (Some (privateKeyBlock der), []).

(** ** Key generation *)

Section KeyGeneration.
(** [rsa.GenerateKey]: the reader and the size of the modulus in bits. *)
Variable rsa_GenerateKey : Reader -> Z -> result rsa.PrivateKey.

(** Generates RSA private key. *)
Definition TLSGeneratePrivateKey (rand : Reader) : result rsa.PrivateKey :=
  rsa_GenerateKey rand 2048.

End KeyGeneration.

(** ** Names

    Whether a name holds a dot.  Kubernetes service and namespace names are
    DNS labels and hold none, but the package takes any string. *)
Fixpoint has_dot (s : string) : bool :=
  match s with
  | EmptyString => false
  | String c s' => Ascii.eqb c "." || has_dot s'
  end.

(** * A sample library

    Closed examples need the library entry points at concrete inputs.  The
    module below computes them on the inputs the examples use: dotted
    decimal IPv4 literals, PEM blocks without headers, the validity field of
    a DER certificate and the PKCS#1 encoding of a key.  It is
    used by examples only; the theorems are stated for every [GoLib]. *)
Module Sample.

Definition byte_of_Z (n : Z) : Byte.byte :=
  default Byte.x00 (Byte.of_N (Z.to_N (n mod 256))).

Definition Z_of_byte (b : Byte.byte) : Z := Z.of_N (Byte.to_N b).

Definition text (s : string) : list ascii := list_ascii_of_string s.

(** ** net: dotted decimal literals *)

Definition digit (c : ascii) : option Z :=
  let n := Z.of_N (N_of_ascii c) in
  if (48 <=? n) && (n <=? 57) then Some (n - 48) else None.

(** The longest prefix of decimal digits, and what follows it. *)
Fixpoint digits (s : list ascii) : list Z * list ascii :=
  match s with
  | c :: s' =>
      match digit c with
      | Some d => let '(ds, rest) := digits s' in (d :: ds, rest)
      | None => ([], s)
      end
  | [] => ([], [])
  end.

Definition decimal (ds : list Z) : Z := foldl (fun n d => n * 10 + d) 0 ds.

(** One component of a literal: at most three digits, at most 255, no
    leading zero in front of another digit. *)
Definition octet (s : list ascii) : option (Z * list ascii) :=
  let '(ds, rest) := digits s in
  match ds with
  | [] => None
  | d :: ds' =>
      if bool_decide (d = 0 /\ ds' <> []) then None
      else if (3 <? Z.of_nat (length ds)) || (255 <? decimal ds) then None
      else Some (decimal ds, rest)
  end.

Definition dot (s : list ascii) : option (list ascii) :=
  match s with
  | c :: s' => if Ascii.eqb c "." then Some s' else None
  | [] => None
  end.

Definition v4InV6Prefix : list Z := [0; 0; 0; 0; 0; 0; 0; 0; 0; 0; 255; 255].

(** [net.ParseIP] on dotted decimal input: the 16 byte form of the
    address.  Anything else, IPv6 literals included, is not recognised. *)
Definition ParseIP (s : string) : option net.IP :=
  '(a, r) ← octet (text s);
  r ← dot r;
  '(b, r) ← octet r;
  r ← dot r;
  '(c, r) ← octet r;
  r ← dot r;
  '(d, r) ← octet r;
  match r with
  | [] => Some (byte_of_Z <$> (v4InV6Prefix ++ [a; b; c; d]))
  | _ :: _ => None
  end.

(** ** encoding/base64, standard alphabet with padding *)

Definition encodeStd : list ascii :=
  text "ABCDEFGHIJKLMNOPQRSTUVWXYZabcdefghijklmnopqrstuvwxyz0123456789+/".

Definition sextet_char (n : Z) : ascii :=
  default "="%char (encodeStd !! Z.to_nat n).

Fixpoint char_index (c : ascii) (l : list ascii) (i : Z) : option Z :=
  match l with
  | [] => None
  | x :: l' => if Ascii.eqb c x then Some i else char_index c l' (i + 1)
  end.

Definition char_sextet (c : ascii) : option Z := char_index c encodeStd 0.

Fixpoint base64_encode (src : list Z) : list ascii :=
  match src with
  | [] => []
  | [a] =>
      [sextet_char (a / 4); sextet_char (a mod 4 * 16); "="; "="]%char
  | [a; b] =>
      [sextet_char (a / 4); sextet_char (a mod 4 * 16 + b / 16);
       sextet_char (b mod 16 * 4); "="%char]
  | a :: b :: c :: src' =>
      [sextet_char (a / 4); sextet_char (a mod 4 * 16 + b / 16);
       sextet_char (b mod 16 * 4 + c / 64); sextet_char (c mod 64)]
      ++ base64_encode src'
  end.

Fixpoint base64_decode (s : list ascii) : option (list Z) :=
  match s with
  | [] => Some []
  | a :: b :: c :: d :: s' =>
      x ← char_sextet a;
      y ← char_sextet b;
      if Ascii.eqb d "=" then
        match s' with
        | [] =>
            if Ascii.eqb c "=" then
              if y mod 16 =? 0 then Some [x * 4 + y / 16] else None
            else
              z ← char_sextet c;
              if z mod 4 =? 0
              then Some [x * 4 + y / 16; y mod 16 * 16 + z / 4]
              else None
        | _ :: _ => None
        end
      else
        z ← char_sextet c;
        w ← char_sextet d;
        tail ← base64_decode s';
        Some (x * 4 + y / 16 :: y mod 16 * 16 + z / 4 :: z mod 4 * 64 + w
              :: tail)
  | _ => None
  end.

(** ** encoding/pem *)

Definition pemStart : list ascii := text "-----BEGIN ".
Definition pemEnd : list ascii := text "-----END ".
Definition pemEndOfLine : list ascii := text "-----".
Definition pemLineLength : nat := 64.
Definition nl : ascii := ascii_of_nat 10.

(** Lines of [pemLineLength] characters, each closed by a newline. *)
Fixpoint breakLines (fuel : nat) (s : list ascii) : list ascii :=
  match fuel, s with
  | S fuel', _ :: _ =>
      take pemLineLength s ++ [nl] ++ breakLines fuel' (drop pemLineLength s)
  | _, _ => []
  end.

(** [pem.EncodeToMemory] for a block without headers. *)
Definition EncodeToMemory (b : pem.Block) : bytes :=
  let body := base64_encode (Z_of_byte <$> b.(pem.Bytes)) in
  byte_of_ascii <$>
    (pemStart ++ text b.(pem.Type_) ++ pemEndOfLine ++ [nl]
     ++ breakLines (length body) body
     ++ pemEnd ++ text b.(pem.Type_) ++ pemEndOfLine ++ [nl]).

Fixpoint strip_prefix (p s : list ascii) : option (list ascii) :=
  match p, s with
  | [], _ => Some s
  | a :: p', b :: s' => if Ascii.eqb a b then strip_prefix p' s' else None
  | _ :: _, [] => None
  end.

Definition strip_suffix (p s : list ascii) : option (list ascii) :=
  reverse <$> strip_prefix (reverse p) (reverse s).

(** [bytes.Cut]: the input before and after the first [sep]. *)
Fixpoint cut (sep s : list ascii) : option (list ascii * list ascii) :=
  match strip_prefix sep s with
  | Some after => Some ([], after)
  | None =>
      match s with
      | [] => None
      | c :: s' => '(before, after) ← cut sep s'; Some (c :: before, after)
      end
  end.

(** [pem.Decode] for input that starts with a block without headers, the
    layout [EncodeToMemory] writes.  The type between the dashes is
    returned as found. *)
Definition Decode (data : bytes) : option pem.Block * bytes :=
  let found :=
    rest ← strip_prefix pemStart (ascii_of_byte <$> data);
    '(typeLine, rest) ← cut [nl] rest;
    typ ← strip_suffix pemEndOfLine typeLine;
    '(body, rest) ← cut (pemEnd ++ typ ++ pemEndOfLine) rest;
    payload ← base64_decode (filter (fun c => c <> nl) body);
    Some ({| pem.Type_ := string_of_list_ascii typ;
             pem.Headers := [];
             pem.Bytes := byte_of_Z <$> payload |},
          byte_of_ascii <$> default rest (strip_prefix [nl] rest)) in
  match found with
  | Some (p, rest) => (Some p, rest)
  | None => (None, data)
  end.


(** ** DER *)

(** The length octets that follow a tag. *)
Definition der_length (l : list Z) : option (nat * list Z) :=
  match l with
  | n :: l' =>
      if n <? 128 then Some (Z.to_nat n, l')
      else if n =? 129 then
        match l' with
        | a :: l'' => Some (Z.to_nat a, l'')
        | [] => None
        end
      else if n =? 130 then
        match l' with
        | a :: b :: l'' => Some (Z.to_nat (a * 256 + b), l'')
        | _ => None
        end
      else None
  | [] => None
  end.

(** The first element of [l]: its tag, its content and what follows it. *)
Definition der_element (l : list Z) : option (Z * list Z * list Z) :=
  match l with
  | tag :: l' =>
      '(n, l'') ← der_length l';
      if bool_decide (n <= length l'')%nat
      then Some (tag, take n l'', drop n l'')
      else None
  | [] => None
  end.

(** The octets of a natural number, the least significant first. *)
Fixpoint le_octets (count : nat) (n : Z) : list Z :=
  match count with
  | O => []
  | S count' => n mod 256 :: le_octets count' (n / 256)
  end.

(** The big-endian octets of a natural number, at least one. *)
Definition be_octets (n : Z) : list Z :=
  reverse (le_octets (Z.to_nat (Z.log2 n / 8 + 1)) n).

Definition der_encode (tag : Z) (content : list Z) : list Z :=
  let n := Z.of_nat (length content) in
  let len :=
    if n <? 128 then [n]
    else let os := be_octets n in (128 + Z.of_nat (length os)) :: os in
  tag :: len ++ content.

(** INTEGER, for a natural number. *)
Definition der_integer (n : Z) : list Z :=
  let os := be_octets n in
  der_encode 2 (if 128 <=? default 0 (head os) then 0 :: os else os).

Definition der_sequence (elements : list (list Z)) : list Z :=
  der_encode 48 (concat elements).

(** ** crypto/x509 *)

(** What [Precompute] derives for each prime after the second: its
    exponent and the inverse of the product [r] of the primes before it. *)
Fixpoint additionalPrimes (d r : Z) (primes : list Z) : list (list Z) :=
  match primes with
  | [] => []
  | prime :: primes' =>
      der_sequence
        (der_integer <$> [prime; d mod (prime - 1); Z.invmod r prime])
      :: additionalPrimes d (r * prime) primes'
  end.

(** [x509.MarshalPKCS1PrivateKey] for a key of natural numbers: version,
    modulus, exponents, the first two primes and the values precomputed
    from them, then the further primes if there are any.  A nil key, a
    key with fewer than two primes and a prime equal to one (a division
    by zero) make the call panic. *)
Definition MarshalPKCS1PrivateKey (key : option rsa.PrivateKey)
  : outcome bytes :=
  match key with
  | None => Panics
  | Some key =>
      match key.(rsa.Primes) with
      | p :: q :: more =>
          if bool_decide (1 ∈ key.(rsa.Primes)) then Panics else
          let version := match more with [] => 0 | _ :: _ => 1 end in
          let others :=
            match more with
            | [] => []
            | _ :: _ =>
                [der_sequence (additionalPrimes key.(rsa.D) (p * q) more)]
            end in
          Returns
            (byte_of_Z <$>
               der_sequence
                 ((der_integer <$>
                     [version; key.(rsa.N); key.(rsa.E); key.(rsa.D); p; q;
                      key.(rsa.D) mod (p - 1); key.(rsa.D) mod (q - 1);
                      Z.invmod q p])
                  ++ others))
      | _ => Panics
      end
  end.

Definition two_digits (s : list ascii) : option (Z * list ascii) :=
  match s with
  | a :: b :: rest => x ← digit a; y ← digit b; Some (x * 10 + y, rest)
  | _ => None
  end.

(** Days from 1970-01-01 to the given day of the proleptic Gregorian
    calendar. *)
Definition days_from_civil (y m d : Z) : Z :=
  let y := if m <=? 2 then y - 1 else y in
  let era := y / 400 in
  let yoe := y - era * 400 in
  let doy := (153 * (if 2 <? m then m - 3 else m + 9) + 2) / 5 + d - 1 in
  let doe := yoe * 365 + yoe / 4 - yoe / 100 + doy in
  era * 146097 + doe - 719468.

(** The instant written [MMDDHHMMSSZ] in year [y]. *)
Definition time_of_day (y : Z) (s : list ascii) : option time.Time :=
  '(mo, s) ← two_digits s;
  '(d, s) ← two_digits s;
  '(h, s) ← two_digits s;
  '(mi, s) ← two_digits s;
  '(sec, s) ← two_digits s;
  match s with
  | [z] =>
      if Ascii.eqb z "Z"
      then Some ((days_from_civil y mo d * 86400 + h * 3600 + mi * 60 + sec)
                 * time.Second)
      else None
  | _ => None
  end.

(** UTCTime (tag 23) and GeneralizedTime (tag 24). *)
Definition der_time (tag : Z) (content : list Z) : option time.Time :=
  let s := (fun n => ascii_of_N (Z.to_N n)) <$> content in
  if tag =? 23 then
    '(yy, s) ← two_digits s;
    time_of_day (if yy <? 50 then 2000 + yy else 1900 + yy) s
  else if tag =? 24 then
    '(c, s) ← two_digits s;
    '(yy, s) ← two_digits s;
    time_of_day (c * 100 + yy) s
  else None.

(** The [notAfter] of a DER certificate.  The fields in front of the
    validity are skipped and those behind it are not read. *)
Definition certificate_notAfter (der : list Z) : option time.Time :=
  '(tag, cert, rest) ← der_element der;
  if negb (tag =? 48) || negb (bool_decide (rest = [])) then None else
  '(tag, tbs, _) ← der_element cert;
  if negb (tag =? 48) then None else
  '(tag, _, rest) ← der_element tbs;
  rest ← (if tag =? 160
          then '(_, _, rest) ← der_element rest; Some rest
          else Some rest);
  '(_, _, rest) ← der_element rest;
  '(_, _, rest) ← der_element rest;
  '(tag, validity, _) ← der_element rest;
  if negb (tag =? 48) then None else
  '(_, _, rest) ← der_element validity;
  '(tag, notAfter, _) ← der_element rest;
  der_time tag notAfter.

(** [x509.ParseCertificate], as far as the package looks at its result. *)
Definition ParseCertificate (der : bytes) : result x509.Certificate :=
  match certificate_notAfter (Z_of_byte <$> der) with
  | Some t => Ok {| x509.NotAfter := t |}
  | None => Err "x509: malformed certificate"
  end.

(** ** Recorded artefacts

    A 1024 bit key, a certificate (self-signed with a P-256 key, valid from
    2026-01-01 to 2027-01-01 UTC) and a PKCS#10 request for the key with
    subject [CN=webhook] and the names [webhook], [webhook.kube-system],
    [webhook.kube-system.svc] and [10.0.0.1], all three made with OpenSSL. *)

Definition key_N : Z :=
  0xf12e4d9231053ecb73a5bc89b0e0a7d5360da11a907e7b08a6e923263dc4564c3bb5c0a1d13edc334aa9a78016c23d730648187d3f7015e3217d5675fb65c4e02ebf88457703bb7688d29343430176fe8df05060ec8d0f63067d84d0ea7cfaf8e3cdd316046dd9716ab084f5209c542d718a1768a79dfc81c05bc4095d808a35.
Definition key_D : Z :=
  0x8da28a8d7ada40b94c2e1d9da2d11bdedb427fc4d0ec66267b96d83c81f38656788e5114f683fadee84edf7e1a5f71a4d6208ab92b0310e774e85d59260ceae334d67b6d47b903a636aed1c0501dac132c9e4a6b6873d9f198a7c1165ad3b4b69c329df2897d9b2818db647de5ca148b1d1de15b6c21c9f4ccff929349154aa1.
Definition key_P : Z :=
  0xfa14a421a89434c5a39c9449c6445c2d763fce52d5208095c39b48fc6918e1362f47b67b7db3b99baeb245ac4bc1f2433a7153b62c39c9c166d5f20505dd2209.
Definition key_Q : Z :=
  0xf6e3bbe483f4ace208ff0d08ffea38a4bf9603b40cb84c0298afde99c0a09996becff85840e5cb5ff971a9d3ed82bb6ffcdcaf1f2ddbe658e268fd11298841cd.

Definition key : rsa.PrivateKey :=
  {| rsa.N := key_N; rsa.E := 65537; rsa.D := key_D;
     rsa.Primes := [key_P; key_Q] |}.

(** The PKCS#1 encoding of [key], in base64. *)
Definition key_lines : list string :=
  [ "MIICXwIBAAKBgQDxLk2SMQU+y3OlvImw4KfVNg2hGpB+ewim6SMmPcRWTDu1wKHR";
    "PtwzSqmngBbCPXMGSBh9P3AV4yF9VnX7ZcTgLr+IRXcDu3aI0pNDQwF2/o3wUGDs";
    "jQ9jBn2E0Op8+vjjzdMWBG3ZcWqwhPUgnFQtcYoXaKed/IHAW8QJXYCKNQIDAQAB";
    "AoGBAI2iio162kC5TC4dnaLRG97bQn/E0OxmJnuW2DyB84ZWeI5RFPaD+t7oTt9+";
    "Gl9xpNYgirkrAxDndOhdWSYM6uM01nttR7kDpjau0cBQHawTLJ5Ka2hz2fGYp8EW";
    "WtO0tpwynfKJfZsoGNtkfeXKFIsdHeFbbCHJ9Mz/kpNJFUqhAkEA+hSkIaiUNMWj";
    "nJRJxkRcLXY/zlLVIICVw5tI/GkY4TYvR7Z7fbO5m66yRaxLwfJDOnFTtiw5ycFm";
    "1fIFBd0iCQJBAPbju+SD9KziCP8NCP/qOKS/lgO0DLhMApiv3pnAoJmWvs/4WEDl";
    "y1/5canT7YK7b/zcrx8t2+ZY4mj9ESmIQc0CQQDaNtypShJYogSMApEFYm0UdlRi";
    "0sCKJemIz502Mva0vbUv3DmRjBvvjtacGSXZzG2BN5YWJi0esZXsJczgOv8RAkEA";
    "23Eh0YREFuI10tU4OZdqz2yGnzYK1EijSimPtqOTW9C0O0/myZA2i1DA6Y04H6oQ";
    "aPWSJilxujUo0N6WwY6dxQJBAIuqq3wMX4juOfw/VNnoKSyrwx0PZhUEcll+dbcK";
    "TR6hAY+1pDuXvY2PzBc0dJX0XRmuym6DZG9zaky7f1rqD80=" ].

(** The certificate, in base64. *)
Definition certificate_lines : list string :=
  [ "MIIBKzCB0gIBATAKBggqhkjOPQQDAjAiMSAwHgYDVQQDDBd3ZWJob29rLmt1YmUt";
    "c3lzdGVtLnN2YzAeFw0yNjAxMDEwMDAwMDBaFw0yNzAxMDEwMDAwMDBaMCIxIDAe";
    "BgNVBAMMF3dlYmhvb2sua3ViZS1zeXN0ZW0uc3ZjMFkwEwYHKoZIzj0CAQYIKoZI";
    "zj0DAQcDQgAEcyaaR2CKRug4kO0NOXqPuRTx64tDY/Clftz4axIjKhh0ZUgvHan4";
    "SAe40wypBaQFqNHXpl4KXwDjYltkqpSbMDAKBggqhkjOPQQDAgNIADBFAiAZEyt3";
    "JaEeJXJVjbqsTZVPPaMbrmvV0fmHdhyOOv7ihwIhAN4fdyUtCsWek6nEGLCw0WNd";
    "kca81Ih3WXw94uEZoWY6" ].

(** The request, in base64. *)
Definition request_lines : list string :=
  [ "MIIBqzCCARQCAQAwEjEQMA4GA1UEAwwHd2ViaG9vazCBnzANBgkqhkiG9w0BAQEF";
    "AAOBjQAwgYkCgYEA8S5NkjEFPstzpbyJsOCn1TYNoRqQfnsIpukjJj3EVkw7tcCh";
    "0T7cM0qpp4AWwj1zBkgYfT9wFeMhfVZ1+2XE4C6/iEV3A7t2iNKTQ0MBdv6N8FBg";
    "7I0PYwZ9hNDqfPr4483TFgRt2XFqsIT1IJxULXGKF2innfyBwFvECV2AijUCAwEA";
    "AaBZMFcGCSqGSIb3DQEJDjFKMEgwRgYDVR0RBD8wPYIHd2ViaG9va4ITd2ViaG9v";
    "ay5rdWJlLXN5c3RlbYIXd2ViaG9vay5rdWJlLXN5c3RlbS5zdmOHBAoAAAEwDQYJ";
    "KoZIhvcNAQELBQADgYEA5zQjZM1irWiO3+cROJeeIZ3FwH0wuh6pfISWXmSgHxsP";
    "u0HTQjMFWAiY4rGzyP84hlJ4LBwqpi/Mi6uhPTigzGb36MDxbxnGyE/rrtTvDs/U";
    "CTY2ff4mEjlMdaf3gegzCq4xqiEUXuoEuYpHJZtxrthPW2OmTA5Cs+N8lovLjFo=" ].

(** A 1024 bit key with three primes, made with OpenSSL, and its PKCS#1
    encoding in base64. *)
Definition key3 : rsa.PrivateKey :=
  {| rsa.N :=
       0xb8b2f220a7531f1a58c0eb64475f3a3b80c44e60bbebd4bdf2cee56dcc7af45d558fcc3898d504f8c94b497ac70ed35191c82eed288bcfc1a5d70d85f755418dc81391f504663002dfbc00830507ffd935bcd8f8e5b173046ed9c1a2aa987dd7f595819221e563765a5323151caa66840e7e877f7ede5c1cb11bc86bf193bc9b;
     rsa.E := 65537;
     rsa.D :=
       0x6876b5a1a861c806b3ca3198df114a335b6a2c5664134799439aa7830993456100c2bb240bb4f801ea80043c38c4fa7fc7bbe53eb721b1111b8725848ccb227ab325c7b2188440f660e7dbee2ed9c9e581adb100f80e295832936cdf26bd8a7872faf4dc25b82fe28729f4fd25e44296d49a0ad57fcc89644c7873df4e9b54c1;
     rsa.Primes :=
       [ 0x3e973571524648895d08bd114b9615436f1ffe02ca3f9262f4aa64ddeaa2f73bcf44f70394594e3bfed9f9;
         0x1de221d06e303fd064037f3c9b15f2955e96649f60d1ed9b6bb62bb7c01a57c725e168cd4f7d60e192f4b5;
         0x194783f95631c849706301a6d74bd1f77a128e6469b263a3698476dd804e9804e97eb4c81dfa6945406a47 ] |}.

Definition key3_lines : list string :=
  [ "MIICfQIBAQKBgQC4svIgp1MfGljA62RHXzo7gMROYLvr1L3yzuVtzHr0XVWPzDiY";
    "1QT4yUtJescO01GRyC7tKIvPwaXXDYX3VUGNyBOR9QRmMALfvACDBQf/2TW82Pjl";
    "sXMEbtnBoqqYfdf1lYGSIeVjdlpTIxUcqmaEDn6Hf37eXByxG8hr8ZO8mwIDAQAB";
    "AoGAaHa1oahhyAazyjGY3xFKM1tqLFZkE0eZQ5qngwmTRWEAwrskC7T4AeqABDw4";
    "xPp/x7vlPrchsREbhyWEjMsierMlx7IYhED2YOfb7i7ZyeWBrbEA+A4pWDKTbN8m";
    "vYp4cvr03CW4L+KHKfT9JeRCltSaCtV/zIlkTHhz306bVMECKz6XNXFSRkiJXQi9";
    "EUuWFUNvH/4Cyj+SYvSqZN3qovc7z0T3A5RZTjv+2fkCKx3iIdBuMD/QZAN/PJsV";
    "8pVelmSfYNHtm2u2K7fAGlfHJeFozU99YOGS9LUCKw29vKnoWi3KmnY0q/tgM8Le";
    "PrPRgP178eWtEv/1Z1nH87U8VbjX8mkRhmECKxfh2VRSO41EZinFThJDgBOP/HF+";
    "Tkp3snZqqJW5mVP9fHCg6TRV509fuuECKy4ri4H5jjyS5/34ZmaTnh4xcliWV6wB";
    "VH542QSWVCiYCqzZ9nEKEaHVrn0wgYowgYcCKxlHg/lWMchJcGMBptdL0fd6Eo5k";
    "abJjo2mEdt2ATpgE6X60yB36aUVAakcCKxGoGO77nFPnr58HlVAFfkdbtUBNtGHM";
    "JGRcCGYX601VCP3eKXR+5i5fmpsCKwSA8UKNVm73iRzcPnVQaxN+aIdU5q9bOwvi";
    "TEFvIpQyA5jpeDY/F9k/Pe8=" ].

(** The text of a PEM block of the given type with the given base64 lines. *)
Definition pem_text (type : string) (lines : list string) : bytes :=
  byte_of_ascii <$>
    (pemStart ++ text type ++ pemEndOfLine ++ [nl]
     ++ concat ((fun l => text l ++ [nl]) <$> lines)
     ++ pemEnd ++ text type ++ pemEndOfLine ++ [nl]).

(** The payload of a PEM body. *)
Definition payload (lines : list string) : bytes :=
  byte_of_Z <$> default [] (base64_decode (concat (text <$> lines))).

Definition certificate_pem : bytes := pem_text "CERTIFICATE" certificate_lines.

(** 2027-01-01T00:00:00Z. *)
Definition certificate_notAfter_unix : Z := 1798761600.

(** The template the recorded request answers. *)
Definition request_template : x509.CertificateRequest :=
  {| x509.Subject := {| pkix.CommonName := "webhook" |};
     x509.SignatureAlgorithm_ := x509.SHA256WithRSA;
     x509.DNSNames :=
       ["webhook"; "webhook.kube-system"; "webhook.kube-system.svc"];
     x509.IPAddresses :=
       [byte_of_Z <$> (v4InV6Prefix ++ [10; 0; 0; 1])] |}.

(** [x509.CreateCertificateRequest], replayed: the recorded request answers
    the recorded template and key, any other call fails. *)
Definition CreateCertificateRequest (rand : Reader)
    (template : x509.CertificateRequest) (priv : rsa.PrivateKey)
  : result bytes :=
  if bool_decide (template = request_template /\ priv = key)
  then Ok (payload request_lines)
  else Err "sample: no request recorded for this template and key".

Definition lib : GoLib :=
  {| net_ParseIP := ParseIP;
     x509_MarshalPKCS1PrivateKey := MarshalPKCS1PrivateKey;
     pem_EncodeToMemory := EncodeToMemory;
     pem_Decode := Decode;
     x509_ParseCertificate := ParseCertificate;
     x509_CreateCertificateRequest := CreateCertificateRequest |}.

(** The end-to-end scenario: a webhook service reached from an API server
    known by address. *)
Definition webhook : TlsCertificateProps :=
  {| Service := "webhook";
     Namespace := "kube-system";
     ApiServerHost := "10.0.0.1" |}.

(** The same service, the API server known by name. *)
Definition webhook_by_name : TlsCertificateProps :=
  {| Service := "webhook";
     Namespace := "kube-system";
     ApiServerHost := "kubernetes.default.svc" |}.

Definition day : time.Duration := 24 * time.Hour.

Definition certificate_notAfter_time : time.Time :=
  certificate_notAfter_unix * time.Second.

(** A descriptor whose service name reads as an address. *)
Definition address_named : TlsCertificateProps :=
  {| Service := "10.0.0.1";
     Namespace := "kube-system";
     ApiServerHost := "10.0.0.1" |}.

(** A descriptor with neither service nor namespace. *)
Definition unnamed : TlsCertificateProps :=
  {| Service := ""; Namespace := ""; ApiServerHost := "10.0.0.1" |}.

(** The recorded certificate with the recorded key. *)
Definition pair : TlsPemPair :=
  {| Certificate := certificate_pem;
     PrivateKey := pem_text "PRIVATE KEY" key_lines |}.

(** The recorded certificate with no key at all. *)
Definition pair_without_key : TlsPemPair :=
  {| Certificate := certificate_pem; PrivateKey := [] |}.

(** The recorded certificate inside a block of another type. *)
Definition mislabelled_pair : TlsPemPair :=
  {| Certificate := pem_text "PRIVATE KEY" certificate_lines;
     PrivateKey := pem_text "PRIVATE KEY" key_lines |}.

(** Text that holds no PEM block. *)
Definition garbage_pair : TlsPemPair :=
  {| Certificate := list_byte_of_string "not valid pem";
     PrivateKey := [] |}.

(** A well-formed block whose payload, the key, is no certificate. *)
Definition key_as_certificate_pair : TlsPemPair :=
  {| Certificate := pem_text "CERTIFICATE" key_lines;
     PrivateKey := pem_text "PRIVATE KEY" key_lines |}.

(** What [Decode] finds in [certificate_pem]. *)
Definition certificate_block : pem.Block :=
  {| pem.Type_ := "CERTIFICATE";
     pem.Headers := [];
     pem.Bytes := payload certificate_lines |}.

(** What [Decode] finds in the certificate of [mislabelled_pair]. *)
Definition mislabelled_block : pem.Block :=
  {| pem.Type_ := "PRIVATE KEY";
     pem.Headers := [];
     pem.Bytes := payload certificate_lines |}.

(** What [Decode] finds in the certificate of [key_as_certificate_pair]. *)
Definition key_block : pem.Block :=
  {| pem.Type_ := "CERTIFICATE";
     pem.Headers := [];
     pem.Bytes := payload key_lines |}.

(** What [ParseCertificate] reads in the recorded certificate. *)
Definition certificate : x509.Certificate :=
  {| x509.NotAfter := certificate_notAfter_time |}.

(** [10.0.0.1] as [net.ParseIP] returns it. *)
Definition address : net.IP := byte_of_Z <$> (v4InV6Prefix ++ [10; 0; 0; 1]).

(** Two descriptors that share their in-cluster name: the dot moves from
    the service name to the namespace. *)
Definition dotted_service : TlsCertificateProps :=
  {| Service := "web.hook"; Namespace := "system"; ApiServerHost := "" |}.

Definition dotted_namespace : TlsCertificateProps :=
  {| Service := "web"; Namespace := "hook.system"; ApiServerHost := "" |}.

(** The webhook service, the API server host left empty. *)
Definition webhook_without_host : TlsCertificateProps :=
  {| Service := "webhook"; Namespace := "kube-system"; ApiServerHost := "" |}.

(** A number that fits a byte. *)
Definition is_octet (x : Z) : Prop := 0 <= x < 256.

(** A character that is neither a newline nor a dash: what the base64
    alphabet and its padding are made of. *)
Definition is_plain (c : ascii) : Prop := c <> nl /\ c <> "-"%char.

(** A key with a single prime: its modulus. *)
Definition key_of_one_prime : rsa.PrivateKey :=
  {| rsa.N := 11; rsa.E := 3; rsa.D := 7; rsa.Primes := [11] |}.

End Sample.

(** * Properties of the package *)

(** ** The reserve window *)

Lemma timeReserve_value :
  timeReserveBeforeCertificateExpiration = 15552000000000000.
Proof. reflexivity. Qed.

Lemma timeReserve_is_180_days :
  timeReserveBeforeCertificateExpiration = 180 * (24 * time.Hour).
Proof. reflexivity. Qed.

(** The constant is a legal [Duration]. *)
Lemma timeReserve_in_range :
  time.minDuration <= timeReserveBeforeCertificateExpiration <= time.maxDuration.
Proof. rewrite timeReserve_value. unfold time.minDuration, time.maxDuration. lia. Qed.

(** Saturation of [Sub] cannot move a difference across a bound that is
    itself a [Duration]. *)
Lemma Sub_lt_iff (t u : time.Time) (bound : time.Duration) :
  time.minDuration < bound <= time.maxDuration ->
  time.Sub t u < bound <-> t - u < bound.
Proof.
  intros Hb. unfold time.Sub. cbv zeta.
  destruct (Z.ltb_spec (t - u) time.minDuration);
    [|destruct (Z.ltb_spec time.maxDuration (t - u))]; lia.
Qed.

Lemma Sub_ltb_reserve (t u : time.Time) :
  (time.Sub t u <? timeReserveBeforeCertificateExpiration)
  = (t - u <? timeReserveBeforeCertificateExpiration).
Proof.
  pose proof (Sub_lt_iff t u timeReserveBeforeCertificateExpiration) as H.
  pose proof timeReserve_in_range as [_ Hmax].
  assert (time.minDuration < timeReserveBeforeCertificateExpiration)
    by (rewrite timeReserve_value; unfold time.minDuration; lia).
  destruct (Z.ltb_spec (time.Sub t u) timeReserveBeforeCertificateExpiration);
    destruct (Z.ltb_spec (t - u) timeReserveBeforeCertificateExpiration);
    try reflexivity; exfalso; lia.
Qed.

Section Builder.
Context `{lib : GoLib}.
Implicit Types (props : TlsCertificateProps) (fqdncn : bool).

(** ** The CSR template *)

Lemma serviceDNSNames_eq props :
  serviceDNSNames props =
    [ props.(Service);
      props.(Service) +:+ "." +:+ props.(Namespace);
      props.(Service) +:+ "." +:+ props.(Namespace) +:+ ".svc" ].
Proof. reflexivity. Qed.

Lemma csrTemplate_ip props fqdncn (ip : net.IP) :
  net_ParseIP props.(ApiServerHost) = Some ip ->
  (csrTemplate props fqdncn).(x509.IPAddresses) = [ip] /\
  (csrTemplate props fqdncn).(x509.DNSNames) = serviceDNSNames props.
Proof. intros H. unfold csrTemplate. rewrite H. split; reflexivity. Qed.

Lemma csrTemplate_dns props fqdncn :
  net_ParseIP props.(ApiServerHost) = None ->
  (csrTemplate props fqdncn).(x509.IPAddresses) = [] /\
  (csrTemplate props fqdncn).(x509.DNSNames)
    = serviceDNSNames props ++ [props.(ApiServerHost)].
Proof. intros H. unfold csrTemplate. rewrite H. split; reflexivity. Qed.

Lemma serviceDNSNames_prefix props fqdncn :
  serviceDNSNames props `prefix_of` (csrTemplate props fqdncn).(x509.DNSNames).
Proof.
  destruct (net_ParseIP props.(ApiServerHost)) as [ip|] eqn:H.
  - destruct (csrTemplate_ip props fqdncn ip H) as [_ ->]. reflexivity.
  - destruct (csrTemplate_dns props fqdncn H) as [_ ->]. by eexists.
Qed.

Lemma csrTemplate_signature props fqdncn :
  (csrTemplate props fqdncn).(x509.SignatureAlgorithm_) = x509.SHA256WithRSA.
Proof. unfold csrTemplate. by destruct (net_ParseIP _). Qed.

Lemma csrTemplate_common_name props fqdncn :
  (csrTemplate props fqdncn).(x509.Subject).(pkix.CommonName)
  = if fqdncn then GenerateInClusterServiceName props else props.(Service).
Proof. unfold csrTemplate. by destruct (net_ParseIP _). Qed.

(** [CertificateGenerateRequest] hands exactly [csrTemplate] to the library
    and fails exactly when the library does. *)
Lemma CertificateGenerateRequest_inv rand key props fqdncn :
  match CertificateGenerateRequest rand key props fqdncn with
  | Ok csr =>
      exists csrBytes,
        x509_CreateCertificateRequest rand (csrTemplate props fqdncn) key
          = Ok csrBytes /\
        csr.(certificates.Spec).(certificates.Request)
          = certificateRequestToPem csrBytes
  | Err e =>
      x509_CreateCertificateRequest rand (csrTemplate props fqdncn) key = Err e
  end.
Proof.
  unfold CertificateGenerateRequest.
  destruct (x509_CreateCertificateRequest _ _ _) as [b|e]; eauto.
Qed.

End Builder.


(** ** The expiry check *)

Section Evaluator.
Context `{lib : GoLib}.
Implicit Types (now : time.Time) (pair : TlsPemPair).

(** What [tlsCertificateGetExpirationDate] returns, by the outcome of the
    two library calls. *)
Lemma tlsCertificateGetExpirationDate_spec (certData : bytes) :
  tlsCertificateGetExpirationDate certData =
    match (pem_Decode certData).1 with
    | None => Err "Failed to decode PEM"
    | Some block =>
        match x509_ParseCertificate block.(pem.Bytes) with
        | Err err => Err ("Failed to parse certificate: %v" +:+ err)
        | Ok cert => Ok cert.(x509.NotAfter)
        end
    end.
Proof.
  unfold tlsCertificateGetExpirationDate.
  by destruct (pem_Decode certData) as [[block|] rest].
Qed.

Lemma expiration_of_parsed (certData : bytes) block cert :
  (pem_Decode certData).1 = Some block ->
  x509_ParseCertificate block.(pem.Bytes) = Ok cert ->
  tlsCertificateGetExpirationDate certData = Ok cert.(x509.NotAfter).
Proof.
  intros Hd Hp. by rewrite tlsCertificateGetExpirationDate_spec, Hd, Hp.
Qed.

Lemma expiration_of_undecodable (certData : bytes) :
  (pem_Decode certData).1 = None ->
  tlsCertificateGetExpirationDate certData = Err "Failed to decode PEM".
Proof. intros Hd. by rewrite tlsCertificateGetExpirationDate_spec, Hd. Qed.

Lemma expiration_of_unparsable (certData : bytes) block err :
  (pem_Decode certData).1 = Some block ->
  x509_ParseCertificate block.(pem.Bytes) = Err err ->
  tlsCertificateGetExpirationDate certData
  = Err ("Failed to parse certificate: %v" +:+ err).
Proof.
  intros Hd Hp. by rewrite tlsCertificateGetExpirationDate_spec, Hd, Hp.
Qed.

(** The decision, once the expiry is known, in terms of the exact
    difference of the two instants. *)
Lemma decision_of_expiration now pair (notAfter : time.Time) :
  tlsCertificateGetExpirationDate pair.(Certificate) = Ok notAfter ->
  IsTLSPairShouldBeUpdated now (Some pair)
  = (notAfter - now <? timeReserveBeforeCertificateExpiration).
Proof.
  intros H. unfold IsTLSPairShouldBeUpdated. rewrite H. apply Sub_ltb_reserve.
Qed.

Lemma decision_of_error now pair err :
  tlsCertificateGetExpirationDate pair.(Certificate) = Err err ->
  IsTLSPairShouldBeUpdated now (Some pair) = true.
Proof. intros H. unfold IsTLSPairShouldBeUpdated. by rewrite H. Qed.

End Evaluator.

(** * The claims *)

Section Claims.
Context `{lib : GoLib}.
Implicit Types (props : TlsCertificateProps) (fqdncn : bool).
Implicit Types (now : time.Time) (pair : TlsPemPair).

(** C1, as amended.  When [ApiServerHost] parses as an address, that
    address is the only IP SAN of the request and the host is not appended
    to the DNS SANs, which are exactly the three service names.  When it
    does not parse, it is appended as the fourth DNS SAN and there is no
    IP SAN. *)
Theorem apiServerHost_san_bucket props fqdncn :
  match net_ParseIP props.(ApiServerHost) with
  | Some apiServerIP =>
      (csrTemplate props fqdncn).(x509.IPAddresses) = [apiServerIP] /\
      (csrTemplate props fqdncn).(x509.DNSNames) =
        [ props.(Service);
          props.(Service) +:+ "." +:+ props.(Namespace);
          props.(Service) +:+ "." +:+ props.(Namespace) +:+ ".svc" ]
  | None =>
      (csrTemplate props fqdncn).(x509.IPAddresses) = [] /\
      (csrTemplate props fqdncn).(x509.DNSNames) =
        [ props.(Service);
          props.(Service) +:+ "." +:+ props.(Namespace);
          props.(Service) +:+ "." +:+ props.(Namespace) +:+ ".svc";
          props.(ApiServerHost) ]
  end.
Proof.
  destruct (net_ParseIP props.(ApiServerHost)) as [ip|] eqn:H.
  - apply (csrTemplate_ip props fqdncn ip H).
  - apply (csrTemplate_dns props fqdncn H).
Qed.

(** C2.  For a pair whose certificate decodes and parses, the decision is
    [true] exactly when the expiry is less than the reserve window away
    from [now], and the reserve window is 180 days: 179 days left give
    [true], 181 days left give [false]. *)
Theorem rotation_threshold now pair block cert :
  (pem_Decode pair.(Certificate)).1 = Some block ->
  x509_ParseCertificate block.(pem.Bytes) = Ok cert ->
  timeReserveBeforeCertificateExpiration = 180 * (24 * time.Hour) /\
  (IsTLSPairShouldBeUpdated now (Some pair) = true <->
     cert.(x509.NotAfter) - now < 180 * (24 * time.Hour)) /\
  (IsTLSPairShouldBeUpdated now (Some pair) = false <->
     180 * (24 * time.Hour) <= cert.(x509.NotAfter) - now) /\
  (cert.(x509.NotAfter) - now = 179 * (24 * time.Hour) ->
     IsTLSPairShouldBeUpdated now (Some pair) = true) /\
  (cert.(x509.NotAfter) - now = 181 * (24 * time.Hour) ->
     IsTLSPairShouldBeUpdated now (Some pair) = false).
Proof.
  intros Hd Hp.
  pose proof (expiration_of_parsed _ _ _ Hd Hp) as He.
  rewrite (decision_of_expiration now pair _ He), Z.ltb_lt, Z.ltb_ge.
  rewrite timeReserve_value.
  change (180 * (24 * time.Hour)) with 15552000000000000.
  change (179 * (24 * time.Hour)) with 15465600000000000.
  change (181 * (24 * time.Hour)) with 15638400000000000.
  repeat split; lia.
Qed.

(** C3.  A nil pair, a certificate in which no PEM block is found and a
    block whose payload does not parse all give [true]; the result is a
    boolean, so none of the failures reaches the caller as an error. *)
Theorem unreadable_certificate_rotates now (tlsPair : option TlsPemPair) :
  (tlsPair = None \/
   exists pair, tlsPair = Some pair /\
     ((pem_Decode pair.(Certificate)).1 = None \/
      exists block err,
        (pem_Decode pair.(Certificate)).1 = Some block /\
        x509_ParseCertificate block.(pem.Bytes) = Err err)) ->
  IsTLSPairShouldBeUpdated now tlsPair = true.
Proof.
  intros [->|(pair & -> & [Hd|(block & err & Hd & Hp)])].
  - reflexivity.
  - eapply decision_of_error, expiration_of_undecodable, Hd.
  - eapply decision_of_error, expiration_of_unparsable; eassumption.
Qed.

(** C4.  With a non-empty service and namespace, the DNS SANs of the
    request contain the service name, the service name qualified by the
    namespace, and the in-cluster name. *)
Theorem dns_sans_contain_service_names props fqdncn :
  props.(Service) <> "" ->
  props.(Namespace) <> "" ->
  props.(Service) ∈ (csrTemplate props fqdncn).(x509.DNSNames) /\
  props.(Service) +:+ "." +:+ props.(Namespace)
    ∈ (csrTemplate props fqdncn).(x509.DNSNames) /\
  props.(Service) +:+ "." +:+ props.(Namespace) +:+ ".svc"
    ∈ (csrTemplate props fqdncn).(x509.DNSNames).
Proof.
  intros _ _.
  destruct (serviceDNSNames_prefix props fqdncn) as [more ->].
  rewrite serviceDNSNames_eq.
  repeat split; apply elem_of_app; left; repeat constructor.
Qed.

(** C5.  The subject common name of the request is the service name when
    [fqdncn] is false and the in-cluster name when it is true. *)
Theorem subject_common_name props :
  (csrTemplate props false).(x509.Subject).(pkix.CommonName)
    = props.(Service) /\
  (csrTemplate props true).(x509.Subject).(pkix.CommonName)
    = props.(Service) +:+ "." +:+ props.(Namespace) +:+ ".svc".
Proof. split; apply csrTemplate_common_name. Qed.

(** C6, as amended.  A pair whose certificate holds a PEM block is judged
    by the payload of that block alone, whatever its type: a payload that
    does not parse gives [true], and two blocks with the same payload get
    the same decision. *)
Theorem certificate_block_judged_by_payload now pair pair' block block' :
  (pem_Decode pair.(Certificate)).1 = Some block ->
  (pem_Decode pair'.(Certificate)).1 = Some block' ->
  block.(pem.Bytes) = block'.(pem.Bytes) ->
  IsTLSPairShouldBeUpdated now (Some pair)
    = IsTLSPairShouldBeUpdated now (Some pair') /\
  (forall err, x509_ParseCertificate block.(pem.Bytes) = Err err ->
     IsTLSPairShouldBeUpdated now (Some pair) = true).
Proof.
  intros Hd Hd' Hb. split.
  - unfold IsTLSPairShouldBeUpdated.
    by rewrite !tlsCertificateGetExpirationDate_spec, Hd, Hd', Hb.
  - intros err Hp.
    eapply decision_of_error, expiration_of_unparsable; eassumption.
Qed.

(** C7.  A successful [CertificateGenerateRequest] returns an object of
    version [certificates.k8s.io/v1beta1] and kind
    [CertificateSigningRequest], named after the service and namespace,
    whose spec carries the request in a PEM block, the two signer groups
    and the four key usages. *)
Theorem submission_object_shape rand key props fqdncn csr :
  CertificateGenerateRequest rand key props fqdncn = Ok csr ->
  csr.(certificates.TypeMeta).(metav1.APIVersion)
    = "certificates.k8s.io/v1beta1" /\
  csr.(certificates.TypeMeta).(metav1.Kind) = "CertificateSigningRequest" /\
  csr.(certificates.ObjectMeta).(metav1.Name)
    = props.(Service) +:+ "." +:+ props.(Namespace) +:+ ".cert-request" /\
  (exists csrBytes,
     x509_CreateCertificateRequest rand (csrTemplate props fqdncn) key
       = Ok csrBytes /\
     csr.(certificates.Spec).(certificates.Request)
       = pem_EncodeToMemory {| pem.Type_ := "CERTIFICATE REQUEST";
                               pem.Headers := [];
                               pem.Bytes := csrBytes |}) /\
  csr.(certificates.Spec).(certificates.Groups)
    = ["system:masters"; "system:authenticated"] /\
  csr.(certificates.Spec).(certificates.Usages)
    = [certificates.UsageDigitalSignature; certificates.UsageKeyEncipherment;
       certificates.UsageServerAuth; certificates.UsageClientAuth] /\
  certificates.KeyUsage_string <$> csr.(certificates.Spec).(certificates.Usages)
    = ["digital signature"; "key encipherment"; "server auth"; "client auth"].
Proof.
  unfold CertificateGenerateRequest.
  destruct (x509_CreateCertificateRequest _ _ _) as [csrBytes|err] eqn:Hc;
    [|discriminate].
  intros [= <-]. cbn. repeat split; eauto.
Qed.

(** [TLSPrivateKeyToPem] panics exactly where the encoder of the key
    does; it has no other way to fail. *)
Lemma TLSPrivateKeyToPem_panics_iff (rsaKey : option rsa.PrivateKey) :
  TLSPrivateKeyToPem rsaKey = Panics <->
  x509_MarshalPKCS1PrivateKey rsaKey = Panics.
Proof.
  unfold TLSPrivateKeyToPem.
  by destruct (x509_MarshalPKCS1PrivateKey rsaKey).
Qed.

(** C8.  With a library whose key encoder returns on valid keys and whose
    PEM decoder reads back what its encoder wrote, [TLSPrivateKeyToPem]
    returns on every valid key, and what it returns decodes to one block
    of type [PRIVATE KEY], without headers, whose payload is the PKCS#1
    encoding of the key, with nothing left over.  The output is fixed by
    that encoding: two keys get the same output exactly when they have
    the same encoding. *)
Theorem private_key_pem_block (key : rsa.PrivateKey) :
  marshal_returns_on_valid_keys ->
  private_key_block_round_trip ->
  rsa_valid key = true ->
  exists der out,
    x509_MarshalPKCS1PrivateKey (Some key) = Returns der /\
    TLSPrivateKeyToPem (Some key) = Returns out /\
    pem_Decode out
      = (Some {| pem.Type_ := "PRIVATE KEY";
                 pem.Headers := [];
                 pem.Bytes := der |}, []) /\
    forall key' der' out',
      x509_MarshalPKCS1PrivateKey (Some key') = Returns der' ->
      TLSPrivateKeyToPem (Some key') = Returns out' ->
      (out' = out <-> der' = der).
Proof.
  intros Hmarshal Hpem Hvalid.
  destruct (Hmarshal key Hvalid) as [der Hder].
  exists der, (pem_EncodeToMemory (privateKeyBlock der)).
  split; [exact Hder|]. split.
  { unfold TLSPrivateKeyToPem. by rewrite Hder. }
  split; [exact (Hpem der)|].
  intros key' der' out' Hder'. unfold TLSPrivateKeyToPem. rewrite Hder'.
  intros [= <-]. split.
  - intros Hout. apply (f_equal pem_Decode) in Hout.
    fold (privateKeyBlock der') in Hout.
    rewrite (Hpem der'), (Hpem der) in Hout.
    by injection Hout.
  - by intros ->.
Qed.

(** C9.  An empty service or namespace is not rejected: the in-cluster
    name is still the plain concatenation ([..svc] when both are empty),
    the names go into the template, and [CertificateGenerateRequest] fails
    only when the library call fails, with the error of the library. *)
Theorem empty_names_not_rejected rand key props fqdncn :
  props.(Service) = "" \/ props.(Namespace) = "" ->
  GenerateInClusterServiceName props
    = props.(Service) +:+ "." +:+ props.(Namespace) +:+ ".svc" /\
  (props.(Service) = "" -> props.(Namespace) = "" ->
     GenerateInClusterServiceName props = "..svc") /\
  (forall err,
     CertificateGenerateRequest rand key props fqdncn = Err err ->
     x509_CreateCertificateRequest rand (csrTemplate props fqdncn) key
       = Err err) /\
  (forall csrBytes,
     x509_CreateCertificateRequest rand (csrTemplate props fqdncn) key
       = Ok csrBytes ->
     exists csr, CertificateGenerateRequest rand key props fqdncn = Ok csr).
Proof.
  intros _. split; [reflexivity|]. split.
  { unfold GenerateInClusterServiceName. intros -> ->. reflexivity. }
  unfold CertificateGenerateRequest.
  destruct (x509_CreateCertificateRequest _ _ _) as [csrBytes|err'].
  - split; [discriminate|eauto].
  - split; [by intros err [= ->]|discriminate].
Qed.

(** C10.  Two pairs with the same certificate bytes get the same decision
    at the same instant, whatever their private keys. *)
Theorem rotation_independent_of_private_key now pair pair' :
  pair.(Certificate) = pair'.(Certificate) ->
  IsTLSPairShouldBeUpdated now (Some pair)
    = IsTLSPairShouldBeUpdated now (Some pair').
Proof. intros H. unfold IsTLSPairShouldBeUpdated. by rewrite H. Qed.

End Claims.


(** * The claims on the sample library *)

(** The sample library agrees with OpenSSL on the recorded artefacts. *)
Example sample_marshal_recorded_key :
  Sample.MarshalPKCS1PrivateKey (Some Sample.key)
  = Returns (Sample.payload Sample.key_lines).
Proof. vm_compute. reflexivity. Qed.

Example sample_marshal_three_primes :
  Sample.MarshalPKCS1PrivateKey (Some Sample.key3)
  = Returns (Sample.payload Sample.key3_lines).
Proof. vm_compute. reflexivity. Qed.

Example sample_decode_certificate :
  Sample.Decode Sample.certificate_pem = (Some Sample.certificate_block, []).
Proof. vm_compute. reflexivity. Qed.

Example sample_parse_certificate :
  Sample.ParseCertificate (Sample.payload Sample.certificate_lines)
  = Ok Sample.certificate.
Proof. vm_compute. reflexivity. Qed.

(** The end-to-end scenario of the specification. *)
Example webhook_template :
  @csrTemplate Sample.lib Sample.webhook false
  = {| x509.Subject := {| pkix.CommonName := "webhook" |};
       x509.SignatureAlgorithm_ := x509.SHA256WithRSA;
       x509.DNSNames :=
         ["webhook"; "webhook.kube-system"; "webhook.kube-system.svc"];
       x509.IPAddresses := [Sample.address] |}.
Proof. vm_compute. reflexivity. Qed.

Example webhook_by_name_template :
  @csrTemplate Sample.lib Sample.webhook_by_name true
  = {| x509.Subject := {| pkix.CommonName := "webhook.kube-system.svc" |};
       x509.SignatureAlgorithm_ := x509.SHA256WithRSA;
       x509.DNSNames :=
         ["webhook"; "webhook.kube-system"; "webhook.kube-system.svc";
          "kubernetes.default.svc"];
       x509.IPAddresses := [] |}.
Proof. vm_compute. reflexivity. Qed.

(** Exactly 180 days before expiry the pair is not yet renewed. *)
Example rotation_at_the_boundary :
  @IsTLSPairShouldBeUpdated Sample.lib
    (Sample.certificate_notAfter_time - 180 * Sample.day) (Some Sample.pair)
  = false /\
  @IsTLSPairShouldBeUpdated Sample.lib
    (Sample.certificate_notAfter_time - 180 * Sample.day + 1) (Some Sample.pair)
  = true.
Proof. split; vm_compute; reflexivity. Qed.

(** C1, counterexample.  The service is named [10.0.0.1] and so is the API
    server host: the host parses as an address and yet is among the DNS
    SANs of the request. *)
Lemma address_named_host_among_dns_names :
  @net_ParseIP Sample.lib Sample.address_named.(ApiServerHost)
    = Some Sample.address /\
  Sample.address_named.(ApiServerHost)
    ∈ (@csrTemplate Sample.lib Sample.address_named false).(x509.DNSNames).
Proof. split; [vm_compute; reflexivity|]. vm_compute. constructor. Qed.

(** C2, witness: the recorded certificate, 179 and 181 days before it
    expires. *)
Lemma rotation_threshold_witness :
  (@pem_Decode Sample.lib Sample.pair.(Certificate)).1
    = Some Sample.certificate_block /\
  @x509_ParseCertificate Sample.lib Sample.certificate_block.(pem.Bytes)
    = Ok Sample.certificate /\
  @IsTLSPairShouldBeUpdated Sample.lib
    (Sample.certificate_notAfter_time - 179 * Sample.day) (Some Sample.pair)
  = true /\
  @IsTLSPairShouldBeUpdated Sample.lib
    (Sample.certificate_notAfter_time - 181 * Sample.day) (Some Sample.pair)
  = false.
Proof.
  assert (Hd : (@pem_Decode Sample.lib Sample.pair.(Certificate)).1
               = Some Sample.certificate_block)
    by (vm_compute; reflexivity).
  assert (Hp : @x509_ParseCertificate Sample.lib
                 Sample.certificate_block.(pem.Bytes) = Ok Sample.certificate)
    by (vm_compute; reflexivity).
  split; [exact Hd|]. split; [exact Hp|]. split.
  - apply (rotation_threshold
             (Sample.certificate_notAfter_time - 179 * Sample.day)
             Sample.pair Sample.certificate_block Sample.certificate Hd Hp).
    vm_compute. reflexivity.
  - apply (rotation_threshold
             (Sample.certificate_notAfter_time - 181 * Sample.day)
             Sample.pair Sample.certificate_block Sample.certificate Hd Hp).
    vm_compute. reflexivity.
Defined.

(** C3, witness: no pair, text that is not PEM, and a PEM block that holds
    a key instead of a certificate. *)
Lemma unreadable_certificate_rotates_witness :
  @IsTLSPairShouldBeUpdated Sample.lib 0 None = true /\
  @IsTLSPairShouldBeUpdated Sample.lib 0 (Some Sample.garbage_pair) = true /\
  @IsTLSPairShouldBeUpdated Sample.lib 0 (Some Sample.key_as_certificate_pair)
  = true.
Proof.
  split; [|split].
  - apply (@unreadable_certificate_rotates Sample.lib 0 None).
    left. reflexivity.
  - apply (@unreadable_certificate_rotates Sample.lib 0
             (Some Sample.garbage_pair)).
    right. exists Sample.garbage_pair. split; [reflexivity|].
    left. vm_compute. reflexivity.
  - apply (@unreadable_certificate_rotates Sample.lib 0
             (Some Sample.key_as_certificate_pair)).
    right. exists Sample.key_as_certificate_pair. split; [reflexivity|].
    right. exists Sample.key_block, "x509: malformed certificate".
    split; vm_compute; reflexivity.
Defined.

(** C4, witness: the webhook service. *)
Lemma dns_sans_contain_service_names_witness :
  Sample.webhook.(Service) <> "" /\
  Sample.webhook.(Namespace) <> "" /\
  "webhook" ∈ (@csrTemplate Sample.lib Sample.webhook false).(x509.DNSNames) /\
  "webhook.kube-system"
    ∈ (@csrTemplate Sample.lib Sample.webhook false).(x509.DNSNames) /\
  "webhook.kube-system.svc"
    ∈ (@csrTemplate Sample.lib Sample.webhook false).(x509.DNSNames).
Proof.
  assert (Hs : Sample.webhook.(Service) <> "") by discriminate.
  assert (Hn : Sample.webhook.(Namespace) <> "") by discriminate.
  split; [exact Hs|]. split; [exact Hn|].
  exact (@dns_sans_contain_service_names Sample.lib Sample.webhook false Hs Hn).
Defined.

(** C6, counterexample.  The recorded certificate inside a block of type
    [PRIVATE KEY] is not taken for a parse failure: its expiry is read,
    and 181 days before it the decision is [false]. *)
Lemma mislabelled_block_not_rejected :
  (@pem_Decode Sample.lib Sample.mislabelled_pair.(Certificate)).1
    = Some Sample.mislabelled_block /\
  Sample.mislabelled_block.(pem.Type_) <> "CERTIFICATE" /\
  @tlsCertificateGetExpirationDate Sample.lib
    Sample.mislabelled_pair.(Certificate)
    = Ok Sample.certificate_notAfter_time /\
  @IsTLSPairShouldBeUpdated Sample.lib
    (Sample.certificate_notAfter_time - 181 * Sample.day)
    (Some Sample.mislabelled_pair)
  = false.
Proof.
  split; [vm_compute; reflexivity|]. split; [discriminate|].
  split; vm_compute; reflexivity.
Qed.

(** C6, witness: the mislabelled block is judged like the certificate
    block with the same payload. *)
Lemma certificate_block_judged_by_payload_witness :
  (@pem_Decode Sample.lib Sample.mislabelled_pair.(Certificate)).1
    = Some Sample.mislabelled_block /\
  (@pem_Decode Sample.lib Sample.pair.(Certificate)).1
    = Some Sample.certificate_block /\
  Sample.mislabelled_block.(pem.Bytes) = Sample.certificate_block.(pem.Bytes) /\
  @IsTLSPairShouldBeUpdated Sample.lib
    (Sample.certificate_notAfter_time - 181 * Sample.day)
    (Some Sample.mislabelled_pair)
  = @IsTLSPairShouldBeUpdated Sample.lib
      (Sample.certificate_notAfter_time - 181 * Sample.day)
      (Some Sample.pair).
Proof.
  assert (Hd : (@pem_Decode Sample.lib Sample.mislabelled_pair.(Certificate)).1
               = Some Sample.mislabelled_block)
    by (vm_compute; reflexivity).
  assert (Hd' : (@pem_Decode Sample.lib Sample.pair.(Certificate)).1
                = Some Sample.certificate_block)
    by (vm_compute; reflexivity).
  assert (Hb : Sample.mislabelled_block.(pem.Bytes)
               = Sample.certificate_block.(pem.Bytes))
    by reflexivity.
  split; [exact Hd|]. split; [exact Hd'|]. split; [exact Hb|].
  exact (proj1 (@certificate_block_judged_by_payload Sample.lib
                  (Sample.certificate_notAfter_time - 181 * Sample.day)
                  Sample.mislabelled_pair Sample.pair
                  Sample.mislabelled_block Sample.certificate_block
                  Hd Hd' Hb)).
Defined.

(** C7, witness: the request for the webhook service and the recorded key
    is the recorded request in a [CERTIFICATE REQUEST] block. *)
Lemma submission_object_shape_witness :
  exists csr,
    @CertificateGenerateRequest Sample.lib [] Sample.key Sample.webhook false
      = Ok csr /\
    csr.(certificates.TypeMeta).(metav1.APIVersion)
      = "certificates.k8s.io/v1beta1" /\
    csr.(certificates.TypeMeta).(metav1.Kind) = "CertificateSigningRequest" /\
    csr.(certificates.ObjectMeta).(metav1.Name)
      = "webhook.kube-system.cert-request" /\
    csr.(certificates.Spec).(certificates.Groups)
      = ["system:masters"; "system:authenticated"] /\
    certificates.KeyUsage_string
      <$> csr.(certificates.Spec).(certificates.Usages)
      = ["digital signature"; "key encipherment"; "server auth";
         "client auth"].
Proof.
  destruct (@CertificateGenerateRequest Sample.lib [] Sample.key
              Sample.webhook false) as [csr|err] eqn:H;
    [|vm_compute in H; discriminate H].
  exists csr. split; [reflexivity|].
  destruct (@submission_object_shape Sample.lib [] Sample.key Sample.webhook
              false csr H) as (Hv & Hk & Hn & _ & Hg & _ & Hu).
  repeat split; assumption.
Defined.

(** ** The sample codec reads back what it writes *)

Lemma byte_of_Z_of_byte (b : Byte.byte) : Sample.byte_of_Z (Sample.Z_of_byte b) = b.
Proof.
  unfold Sample.byte_of_Z, Sample.Z_of_byte.
  pose proof (Byte.to_N_bounded b) as Hb.
  rewrite Z.mod_small by lia. rewrite N2Z.id, Byte.of_to_N. reflexivity.
Qed.

Lemma Z_of_byte_range (b : Byte.byte) : 0 <= Sample.Z_of_byte b < 256.
Proof.
  unfold Sample.Z_of_byte. pose proof (Byte.to_N_bounded b). lia.
Qed.

Lemma fmap_byte_of_Z_of_byte (l : list Byte.byte) :
  Sample.byte_of_Z <$> (Sample.Z_of_byte <$> l) = l.
Proof.
  induction l as [|b l IH]; [reflexivity|].
  cbn [fmap list_fmap]. by rewrite byte_of_Z_of_byte, IH.
Qed.

Lemma fmap_ascii_of_byte_of_ascii (l : list ascii) :
  ascii_of_byte <$> (byte_of_ascii <$> l) = l.
Proof.
  induction l as [|c l IH]; [reflexivity|].
  cbn [fmap list_fmap]. by rewrite ascii_of_byte_of_ascii, IH.
Qed.

Lemma sextet_char_spec (v : Z) :
  0 <= v < 64 ->
  Sample.char_sextet (Sample.sextet_char v) = Some v /\
  Sample.sextet_char v <> "="%char /\
  Sample.is_plain (Sample.sextet_char v).
Proof.
  intros Hv. replace v with (Z.of_nat (Z.to_nat v)) by lia.
  assert (Z.to_nat v < 64)%nat as Hn by lia.
  generalize dependent (Z.to_nat v). intros n Hn.
  do 64 (destruct n as [|n]; [by vm_compute|]). lia.
Qed.

Lemma list_ind3 {A} (P : list A -> Prop) :
  P [] -> (forall a, P [a]) -> (forall a b, P [a; b]) ->
  (forall a b c l, P l -> P (a :: b :: c :: l)) ->
  forall l, P l.
Proof.
  intros H0 H1 H2 H3 l.
  assert (P l /\ (forall a, P (a :: l)) /\ (forall a b, P (a :: b :: l)))
    as [H _]; [|exact H].
  induction l as [|x l (IHl & IHl1 & IHl2)]; [by auto|].
  split; [apply IHl1|]. split; [intros a; apply IHl2|].
  intros a b. by apply H3.
Qed.

Lemma base64_encode_plain (l : list Z) :
  Forall Sample.is_octet l -> Forall Sample.is_plain (Sample.base64_encode l).
Proof.
  assert (Hpad : Sample.is_plain "="%char) by (split; discriminate).
  induction l as [|a|a b|a b c l IH] using list_ind3; intros Hl.
  - constructor.
  - apply Forall_cons in Hl as [Ha _]. unfold Sample.is_octet in Ha.
    cbn [Sample.base64_encode].
    repeat (apply Forall_cons; split); try exact Hpad; try constructor;
      apply sextet_char_spec; Z.div_mod_to_equations; lia.
  - apply Forall_cons in Hl as [Ha Hl]. apply Forall_cons in Hl as [Hb _].
    unfold Sample.is_octet in Ha, Hb. cbn [Sample.base64_encode].
    repeat (apply Forall_cons; split); try exact Hpad; try constructor;
      apply sextet_char_spec; Z.div_mod_to_equations; lia.
  - apply Forall_cons in Hl as [Ha Hl]. apply Forall_cons in Hl as [Hb Hl].
    apply Forall_cons in Hl as [Hc Hl].
    unfold Sample.is_octet in Ha, Hb, Hc. cbn [Sample.base64_encode].
    apply Forall_app. split; [|by apply IH].
    repeat (apply Forall_cons; split); try constructor;
      apply sextet_char_spec; Z.div_mod_to_equations; lia.
Qed.

Lemma base64_round_trip (l : list Z) :
  Forall Sample.is_octet l -> Sample.base64_decode (Sample.base64_encode l) = Some l.
Proof.
  induction l as [|a|a b|a b c l IH] using list_ind3; intros Hl.
  - reflexivity.
  - apply Forall_cons in Hl as [Ha _]. unfold Sample.is_octet in Ha.
    cbn [Sample.base64_encode Sample.base64_decode].
    destruct (sextet_char_spec (a / 4)) as (-> & _ & _);
      [Z.div_mod_to_equations; lia|].
    destruct (sextet_char_spec (a mod 4 * 16)) as (-> & _ & _);
      [Z.div_mod_to_equations; lia|].
    cbn.
    replace (a mod 4 * 16 mod 16 =? 0) with true
      by (symmetry; apply Z.eqb_eq; Z.div_mod_to_equations; lia).
    do 2 f_equal. Z.div_mod_to_equations; lia.
  - apply Forall_cons in Hl as [Ha Hl]. apply Forall_cons in Hl as [Hb _].
    unfold Sample.is_octet in Ha, Hb.
    cbn [Sample.base64_encode Sample.base64_decode].
    destruct (sextet_char_spec (a / 4)) as (-> & _ & _);
      [Z.div_mod_to_equations; lia|].
    destruct (sextet_char_spec (a mod 4 * 16 + b / 16)) as (-> & _ & _);
      [Z.div_mod_to_equations; lia|].
    destruct (sextet_char_spec (b mod 16 * 4)) as (Hz & Hne & _);
      [Z.div_mod_to_equations; lia|].
    apply Ascii.eqb_neq in Hne. rewrite Hne, Hz. cbn.
    replace (b mod 16 * 4 mod 4 =? 0) with true
      by (symmetry; apply Z.eqb_eq; Z.div_mod_to_equations; lia).
    f_equal. f_equal; [|f_equal]; Z.div_mod_to_equations; lia.
  - apply Forall_cons in Hl as [Ha Hl]. apply Forall_cons in Hl as [Hb Hl].
    apply Forall_cons in Hl as [Hc Hl].
    unfold Sample.is_octet in Ha, Hb, Hc.
    cbn [Sample.base64_encode app Sample.base64_decode].
    destruct (sextet_char_spec (a / 4)) as (-> & _ & _);
      [Z.div_mod_to_equations; lia|].
    destruct (sextet_char_spec (a mod 4 * 16 + b / 16)) as (-> & _ & _);
      [Z.div_mod_to_equations; lia|].
    destruct (sextet_char_spec (b mod 16 * 4 + c / 64)) as (Hz & _ & _);
      [Z.div_mod_to_equations; lia|].
    destruct (sextet_char_spec (c mod 64)) as (Hw & Hne & _);
      [Z.div_mod_to_equations; lia|].
    apply Ascii.eqb_neq in Hne. rewrite Hne, Hz, Hw, (IH Hl). cbn.
    f_equal. f_equal; [|f_equal; [|f_equal]]; Z.div_mod_to_equations; lia.
Qed.

Lemma filter_all {A} (P : A -> Prop) `{!forall x, Decision (P x)} (l : list A) :
  Forall P l -> filter P l = l.
Proof.
  induction 1 as [|x l Hx _ IH]; [reflexivity|].
  by rewrite filter_cons_True, IH.
Qed.

Lemma breakLines_filter (fuel : nat) (s : list ascii) :
  (length s <= fuel)%nat ->
  Forall (fun c => c <> Sample.nl) s ->
  filter (fun c => c <> Sample.nl) (Sample.breakLines fuel s) = s.
Proof.
  revert s. induction fuel as [|fuel IH]; intros s Hlen Hs.
  - destruct s; [reflexivity|cbn in Hlen; lia].
  - destruct s as [|c s]; [reflexivity|].
    cbn [Sample.breakLines].
    rewrite !filter_app.
    rewrite (filter_all _ (take Sample.pemLineLength (c :: s)))
      by (by apply Forall_take).
    rewrite IH.
    + rewrite filter_cons_False by (intros H; by apply H).
      rewrite filter_nil. cbn [app]. apply take_drop.
    + rewrite length_drop. cbn in Hlen |- *. unfold Sample.pemLineLength. lia.
    + by apply Forall_drop.
Qed.

Lemma breakLines_no_dash (fuel : nat) (s : list ascii) :
  Forall Sample.is_plain s ->
  Forall (fun c => c <> "-"%char) (Sample.breakLines fuel s).
Proof.
  revert s. induction fuel as [|fuel IH]; intros s Hs.
  - destruct s; constructor.
  - destruct s as [|c s]; [constructor|].
    cbn [Sample.breakLines].
    apply Forall_app. split.
    + apply Forall_take. eapply Forall_impl; [exact Hs|]. by intros ? [_ ?].
    + apply Forall_app. split; [by repeat constructor|].
      apply IH. by apply Forall_drop.
Qed.

Lemma strip_prefix_app (p r : list ascii) :
  Sample.strip_prefix p (p ++ r) = Some r.
Proof.
  induction p as [|c p IH]; [reflexivity|].
  cbn. by rewrite Ascii.eqb_refl.
Qed.

Lemma cut_first (sep pre rest : list ascii) (h : ascii) :
  head sep = Some h ->
  Forall (fun c => c <> h) pre ->
  Sample.cut sep (pre ++ sep ++ rest) = Some (pre, rest).
Proof.
  intros Hh Hpre. destruct sep as [|h' sep]; [discriminate|].
  injection Hh as ->.
  induction Hpre as [|c pre Hc _ IH].
  - cbn [app Sample.cut].
    change (h :: sep ++ rest) with ((h :: sep) ++ rest).
    by rewrite strip_prefix_app.
  - cbn [app Sample.cut Sample.strip_prefix].
    assert (Ascii.eqb h c = false) as -> by (apply Ascii.eqb_neq; congruence).
    cbn [app] in IH. by rewrite IH.
Qed.

Lemma sample_private_key_block_round_trip :
  @private_key_block_round_trip Sample.lib.
Proof.
  intros der. cbn [pem_Decode pem_EncodeToMemory Sample.lib].
  unfold Sample.Decode, Sample.EncodeToMemory, privateKeyBlock.
  cbn [pem.Type_ pem.Bytes].
  rewrite fmap_ascii_of_byte_of_ascii.
  set (body := Sample.base64_encode (Sample.Z_of_byte <$> der)).
  assert (Hoct : Forall Sample.is_octet (Sample.Z_of_byte <$> der)).
  { apply Forall_fmap, Forall_forall. intros b _. apply Z_of_byte_range. }
  pose proof (base64_encode_plain _ Hoct) as Hplain. fold body in Hplain.
  rewrite strip_prefix_app. cbn [mbind option_bind].
  rewrite (app_assoc (Sample.text "PRIVATE KEY")).
  rewrite (cut_first [Sample.nl] _ _ Sample.nl eq_refl)
    by (vm_compute; repeat constructor; discriminate).
  cbn [mbind option_bind].
  replace (Sample.strip_suffix Sample.pemEndOfLine
             (Sample.text "PRIVATE KEY" ++ Sample.pemEndOfLine))
    with (Some (Sample.text "PRIVATE KEY")) by (vm_compute; reflexivity).
  cbn [mbind option_bind].
  set (sep := Sample.pemEnd ++ Sample.text "PRIVATE KEY" ++ Sample.pemEndOfLine).
  assert (Hcut :
    Sample.cut sep
      (Sample.breakLines (length body) body ++ Sample.pemEnd
       ++ Sample.text "PRIVATE KEY" ++ Sample.pemEndOfLine ++ [Sample.nl])
    = Some (Sample.breakLines (length body) body, [Sample.nl])).
  { replace (Sample.pemEnd ++ Sample.text "PRIVATE KEY"
             ++ Sample.pemEndOfLine ++ [Sample.nl])
      with (sep ++ [Sample.nl]) by (unfold sep; by rewrite <- !app_assoc).
    apply (cut_first sep _ _ "-"%char eq_refl), breakLines_no_dash, Hplain. }
  rewrite Hcut. cbn [mbind option_bind].
  rewrite breakLines_filter;
    [|reflexivity|eapply Forall_impl; [exact Hplain|]; by intros ? [? _]].
  unfold body. rewrite (base64_round_trip _ Hoct). cbn [mbind option_bind].
  rewrite fmap_byte_of_Z_of_byte. reflexivity.
Qed.

Lemma sample_marshal_returns_on_valid_keys :
  @marshal_returns_on_valid_keys Sample.lib.
Proof.
  intros key Hvalid. unfold rsa_valid in Hvalid.
  repeat (apply andb_true_iff in Hvalid as [Hvalid ?]).
  apply bool_decide_eq_true in Hvalid.
  cbn [x509_MarshalPKCS1PrivateKey Sample.lib].
  unfold Sample.MarshalPKCS1PrivateKey.
  destruct key.(rsa.Primes) as [|p [|q more]] eqn:Hprimes;
    [cbn in Hvalid; lia|cbn in Hvalid; lia|].
  rewrite bool_decide_eq_false_2; [by eexists|].
  intros Hone.
  match goal with
  | H : forallb (fun prime => 1 <? prime) _ = true |- _ =>
      rewrite forallb_forall in H;
      specialize (H 1 (proj1 (list_elem_of_In _ _) Hone))
  end.
  discriminate.
Qed.

(** The PEM text of the recorded key is the text OpenSSL writes for it,
    under the type [PRIVATE KEY]; so it is for the key of three primes. *)
Example sample_private_key_pem :
  @TLSPrivateKeyToPem Sample.lib (Some Sample.key)
    = Returns (Sample.pem_text "PRIVATE KEY" Sample.key_lines) /\
  @TLSPrivateKeyToPem Sample.lib (Some Sample.key3)
    = Returns (Sample.pem_text "PRIVATE KEY" Sample.key3_lines).
Proof.
  split; unfold TLSPrivateKeyToPem;
    cbn [x509_MarshalPKCS1PrivateKey Sample.lib].
  - rewrite sample_marshal_recorded_key. vm_compute. reflexivity.
  - rewrite sample_marshal_three_primes. vm_compute. reflexivity.
Qed.

(** Without a valid key the call panics: on a nil pointer and on a key
    that has a single prime. *)
Example sample_private_key_panics :
  @TLSPrivateKeyToPem Sample.lib None = Panics /\
  @TLSPrivateKeyToPem Sample.lib (Some Sample.key_of_one_prime) = Panics /\
  rsa_valid Sample.key_of_one_prime = false.
Proof. repeat split. Qed.

(** C8, witness: the sample library meets both conditions and the
    recorded key is valid. *)
Lemma private_key_pem_block_witness :
  @marshal_returns_on_valid_keys Sample.lib /\
  @private_key_block_round_trip Sample.lib /\
  rsa_valid Sample.key = true /\
  exists der out,
    @x509_MarshalPKCS1PrivateKey Sample.lib (Some Sample.key) = Returns der /\
    @TLSPrivateKeyToPem Sample.lib (Some Sample.key) = Returns out /\
    @pem_Decode Sample.lib out
      = (Some {| pem.Type_ := "PRIVATE KEY";
                 pem.Headers := [];
                 pem.Bytes := der |}, []).
Proof.
  assert (Hvalid : rsa_valid Sample.key = true) by (vm_compute; reflexivity).
  split; [exact sample_marshal_returns_on_valid_keys|].
  split; [exact sample_private_key_block_round_trip|].
  split; [exact Hvalid|].
  destruct (@private_key_pem_block Sample.lib Sample.key
              sample_marshal_returns_on_valid_keys
              sample_private_key_block_round_trip Hvalid)
    as (der & out & Hder & Hout & Hdec & _).
  exists der, out. repeat split; assumption.
Defined.

(** C9, witness: a descriptor with neither service nor namespace. *)
Lemma empty_names_not_rejected_witness :
  (Sample.unnamed.(Service) = "" \/ Sample.unnamed.(Namespace) = "") /\
  GenerateInClusterServiceName Sample.unnamed = "..svc" /\
  (@csrTemplate Sample.lib Sample.unnamed false).(x509.DNSNames)
    = [""; "."; "..svc"] /\
  forall err,
    @CertificateGenerateRequest Sample.lib [] Sample.key Sample.unnamed false
      = Err err ->
    @x509_CreateCertificateRequest Sample.lib []
      (@csrTemplate Sample.lib Sample.unnamed false) Sample.key = Err err.
Proof.
  assert (H : Sample.unnamed.(Service) = "" \/ Sample.unnamed.(Namespace) = "")
    by (left; reflexivity).
  split; [exact H|].
  destruct (@empty_names_not_rejected Sample.lib [] Sample.key Sample.unnamed
              false H) as (_ & Hname & Herr & _).
  split; [exact (Hname eq_refl eq_refl)|].
  split; [vm_compute; reflexivity|exact Herr].
Defined.

(** C10, witness: the recorded certificate, with its key and without. *)
Lemma rotation_independent_of_private_key_witness :
  Sample.pair.(Certificate) = Sample.pair_without_key.(Certificate) /\
  Sample.pair.(PrivateKey) <> Sample.pair_without_key.(PrivateKey) /\
  @IsTLSPairShouldBeUpdated Sample.lib
    (Sample.certificate_notAfter_time - 179 * Sample.day) (Some Sample.pair)
  = @IsTLSPairShouldBeUpdated Sample.lib
      (Sample.certificate_notAfter_time - 179 * Sample.day)
      (Some Sample.pair_without_key).
Proof.
  assert (H : Sample.pair.(Certificate) = Sample.pair_without_key.(Certificate))
    by reflexivity.
  split; [exact H|]. split; [vm_compute; discriminate|].
  exact (@rotation_independent_of_private_key Sample.lib
           (Sample.certificate_notAfter_time - 179 * Sample.day)
           Sample.pair Sample.pair_without_key H).
Defined.

(** * Further properties of the package *)

(** ** Strings *)

Lemma string_length_app (s t : string) :
  String.length (s +:+ t) = (String.length s + String.length t)%nat.
Proof. induction s as [|c s IH]; [reflexivity|]. simpl. f_equal. exact IH. Qed.

Lemma string_app_inj_r (s t u : string) : s +:+ u = t +:+ u -> s = t.
Proof.
  revert t. induction s as [|c s IH]; intros [|d t] H.
  - reflexivity.
  - apply (f_equal String.length) in H.
    rewrite !string_length_app in H. cbn in H. lia.
  - apply (f_equal String.length) in H.
    rewrite !string_length_app in H. cbn in H. lia.
  - injection H as -> H. f_equal. by apply IH.
Qed.

(** A text is cut at its first dot in one way only. *)
Lemma first_dot_unique (s1 s2 n1 n2 : string) :
  has_dot s1 = false -> has_dot s2 = false ->
  s1 +:+ "." +:+ n1 = s2 +:+ "." +:+ n2 ->
  s1 = s2 /\ n1 = n2.
Proof.
  revert s2. induction s1 as [|c s1 IH]; intros [|d s2] H1 H2 H;
    simpl in H1, H2, H.
  - injection H as H. by subst.
  - injection H as H _. subst d. discriminate H2.
  - injection H as H _. subst c. discriminate H1.
  - injection H as Hc H. subst d.
    apply orb_false_iff in H1 as [_ H1].
    apply orb_false_iff in H2 as [_ H2].
    destruct (IH s2 H1 H2 H) as [-> ->]. done.
Qed.

Section Names.
Context `{lib : GoLib}.
Implicit Types (props : TlsCertificateProps) (fqdncn : bool).

(** The three service names differ from one another, whatever the
    service and the namespace. *)
Lemma serviceDNSNames_NoDup props : NoDup (serviceDNSNames props).
Proof.
  rewrite serviceDNSNames_eq.
  assert (forall s t : string, s <> s +:+ "." +:+ t) as Hne.
  { intros s t H. apply (f_equal String.length) in H.
    rewrite !string_length_app in H. cbn in H. lia. }
  apply NoDup_cons. split; [|apply NoDup_cons; split; [|apply NoDup_singleton]].
  - intros Hin. apply elem_of_cons in Hin as [H|Hin]; [exact (Hne _ _ H)|].
    apply list_elem_of_singleton in Hin. exact (Hne _ _ Hin).
  - intros Hin. apply list_elem_of_singleton in Hin.
    apply (f_equal String.length) in Hin.
    rewrite !string_length_app in Hin. cbn in Hin. lia.
Qed.

End Names.

(** ** The request, further *)

Section RequestProperties.
Context `{lib : GoLib}.
Implicit Types (props : TlsCertificateProps) (fqdncn : bool).


(** X2.  The subject common name of the request is always one of its DNS
    names, with either value of [fqdncn]. *)
Theorem common_name_among_dns_sans props fqdncn :
  (csrTemplate props fqdncn).(x509.Subject).(pkix.CommonName)
    ∈ (csrTemplate props fqdncn).(x509.DNSNames).
Proof.
  rewrite csrTemplate_common_name.
  destruct (serviceDNSNames_prefix props fqdncn) as [more ->].
  rewrite serviceDNSNames_eq. apply elem_of_app. left.
  destruct fqdncn; unfold GenerateInClusterServiceName; repeat constructor.
Qed.

(** X3.  [fqdncn] changes the common name and nothing else of the
    request: names, addresses and signature algorithm are the same. *)
Theorem fqdncn_changes_common_name_only props :
  (csrTemplate props true).(x509.DNSNames)
    = (csrTemplate props false).(x509.DNSNames) /\
  (csrTemplate props true).(x509.IPAddresses)
    = (csrTemplate props false).(x509.IPAddresses) /\
  (csrTemplate props true).(x509.SignatureAlgorithm_)
    = (csrTemplate props false).(x509.SignatureAlgorithm_) /\
  (csrTemplate props true).(x509.Subject).(pkix.CommonName)
    <> (csrTemplate props false).(x509.Subject).(pkix.CommonName).
Proof.
  rewrite !csrTemplate_common_name, !csrTemplate_signature.
  repeat split.
  - unfold csrTemplate. by destruct (net_ParseIP _).
  - unfold csrTemplate. by destruct (net_ParseIP _).
  - unfold GenerateInClusterServiceName. intros H.
    apply (f_equal String.length) in H.
    rewrite !string_length_app in H. cbn in H. lia.
Qed.

(** X4.  The DNS names of the request are free of repetitions exactly
    when the API server host, if it is not an address, is none of the
    three service names. *)
Theorem dns_sans_NoDup_iff props fqdncn :
  NoDup (csrTemplate props fqdncn).(x509.DNSNames) <->
  (net_ParseIP props.(ApiServerHost) = None ->
   props.(ApiServerHost) ∉ serviceDNSNames props).
Proof.
  pose proof (serviceDNSNames_NoDup props) as Hnd.
  destruct (net_ParseIP props.(ApiServerHost)) as [ip|] eqn:H.
  - destruct (csrTemplate_ip props fqdncn ip H) as [_ ->].
    split; [discriminate|done].
  - destruct (csrTemplate_dns props fqdncn H) as [_ ->].
    rewrite NoDup_app. split.
    + intros (_ & Hd & _) _ Hin. apply (Hd _ Hin). constructor.
    + intros Hn. split; [exact Hnd|]. split; [|apply NoDup_singleton].
      intros x Hx Hx'. apply list_elem_of_singleton in Hx' as ->.
      exact (Hn eq_refl Hx).
Qed.

(** X5.  An empty API server host is not left out: when the library takes
    the empty text for no address, the request gets the empty text as its
    fourth DNS name. *)
Theorem empty_host_becomes_dns_san props fqdncn :
  props.(ApiServerHost) = "" ->
  net_ParseIP "" = None ->
  (csrTemplate props fqdncn).(x509.DNSNames) !! 3%nat = Some "" /\
  (csrTemplate props fqdncn).(x509.IPAddresses) = [].
Proof.
  intros Hh Hp. rewrite <- Hh in Hp.
  destruct (csrTemplate_dns props fqdncn Hp) as [-> ->].
  rewrite serviceDNSNames_eq, Hh. done.
Qed.

(** X6.  Descriptors whose service names hold no dot and that differ in
    service or namespace get different in-cluster names. *)
Theorem in_cluster_name_determines_identity (props props' : TlsCertificateProps) :
  has_dot props.(Service) = false ->
  has_dot props'.(Service) = false ->
  GenerateInClusterServiceName props = GenerateInClusterServiceName props' ->
  props.(Service) = props'.(Service) /\
  props.(Namespace) = props'.(Namespace).
Proof.
  unfold GenerateInClusterServiceName. intros H1 H2 H.
  destruct (first_dot_unique _ _ _ _ H1 H2 H) as [Hs Hn].
  split; [exact Hs|]. exact (string_app_inj_r _ _ _ Hn).
Qed.

(** X7.  Two requests built for service names without a dot carry the
    same object name only when service and namespace are the same. *)
Theorem request_name_determines_identity rand rand' key key'
    (props props' : TlsCertificateProps) fqdncn fqdncn' csr csr' :
  has_dot props.(Service) = false ->
  has_dot props'.(Service) = false ->
  CertificateGenerateRequest rand key props fqdncn = Ok csr ->
  CertificateGenerateRequest rand' key' props' fqdncn' = Ok csr' ->
  csr.(certificates.ObjectMeta).(metav1.Name)
    = csr'.(certificates.ObjectMeta).(metav1.Name) ->
  props.(Service) = props'.(Service) /\
  props.(Namespace) = props'.(Namespace).
Proof.
  intros H1 H2. unfold CertificateGenerateRequest.
  destruct (x509_CreateCertificateRequest rand _ key); [|discriminate].
  destruct (x509_CreateCertificateRequest rand' _ key'); [|discriminate].
  intros [= <-] [= <-]. cbn. intros H.
  destruct (first_dot_unique _ _ _ _ H1 H2 H) as [Hs Hn].
  split; [exact Hs|]. exact (string_app_inj_r _ _ _ Hn).
Qed.

End RequestProperties.

(** ** The expiry check, further *)

Section DecisionProperties.
Context `{lib : GoLib}.
Implicit Types (now : time.Time) (pair : TlsPemPair).

(** X8.  Once a pair is due for an update it stays due: the decision
    never goes back to [false] as time passes. *)
Theorem decision_monotone_in_time now now' (tlsPair : option TlsPemPair) :
  now <= now' ->
  IsTLSPairShouldBeUpdated now tlsPair = true ->
  IsTLSPairShouldBeUpdated now' tlsPair = true.
Proof.
  intros Hle. destruct tlsPair as [pair|]; [|done].
  destruct (tlsCertificateGetExpirationDate pair.(Certificate))
    as [notAfter|err] eqn:He.
  - rewrite !(decision_of_expiration _ pair notAfter He), !Z.ltb_lt. lia.
  - intros _. exact (decision_of_error now' pair err He).
Qed.

(** X9.  The decision is [false] only for a pair that is there, whose
    certificate decodes and parses, and whose expiry is at least the
    reserve window away. *)
Theorem no_update_iff_valid_certificate now (tlsPair : option TlsPemPair) :
  IsTLSPairShouldBeUpdated now tlsPair = false <->
  exists pair block cert,
    tlsPair = Some pair /\
    (pem_Decode pair.(Certificate)).1 = Some block /\
    x509_ParseCertificate block.(pem.Bytes) = Ok cert /\
    timeReserveBeforeCertificateExpiration <= cert.(x509.NotAfter) - now.
Proof.
  split.
  - destruct tlsPair as [pair|]; [|discriminate].
    unfold IsTLSPairShouldBeUpdated.
    rewrite tlsCertificateGetExpirationDate_spec.
    destruct ((pem_Decode pair.(Certificate)).1) as [block|] eqn:Hd;
      [|discriminate].
    destruct (x509_ParseCertificate block.(pem.Bytes)) as [cert|err] eqn:Hp;
      [|discriminate].
    rewrite Sub_ltb_reserve, Z.ltb_ge. intros H.
    exists pair, block, cert. done.
  - intros (pair & block & cert & -> & Hd & Hp & H).
    rewrite (decision_of_expiration now pair _
               (expiration_of_parsed _ _ _ Hd Hp)).
    by apply Z.ltb_ge.
Qed.

(** X10.  The text of an error of [tlsCertificateGetExpirationDate] tells
    which step failed and keeps the error of the parser readable: it is
    [Failed to decode PEM] exactly when no block was found, it starts with
    [Failed to parse certificate: %v] (the verb as it stands) exactly when
    a block was found, and what follows that prefix is the error text of
    the parser and of no other. *)
Theorem expiration_error_identifies_cause (certData : bytes) (e : error) :
  tlsCertificateGetExpirationDate certData = Err e ->
  ((pem_Decode certData).1 = None <-> e = "Failed to decode PEM") /\
  ((exists block, (pem_Decode certData).1 = Some block) <->
   exists err, e = "Failed to parse certificate: %v" +:+ err) /\
  (forall block err,
     (pem_Decode certData).1 = Some block ->
     (x509_ParseCertificate block.(pem.Bytes) = Err err <->
      e = "Failed to parse certificate: %v" +:+ err)).
Proof.
  rewrite tlsCertificateGetExpirationDate_spec.
  destruct ((pem_Decode certData).1) as [block|].
  - destruct (x509_ParseCertificate block.(pem.Bytes)) as [cert|err] eqn:Hp;
      [discriminate|].
    intros [= <-]. split; [split; discriminate|]. split.
    + split; [by exists err|by exists block].
    + intros block' err' [= <-]. rewrite Hp. split.
      * by intros [= ->].
      * intros H. apply String.app_inj in H. by rewrite H.
  - intros [= <-]. split; [done|]. split.
    + split; [by intros [? ?]|intros [err H]; discriminate H].
    + by intros block err.
Qed.

(** X11.  Of two certificates, the one that expires first is due first:
    if the later one needs an update, so does the earlier one. *)
Theorem earlier_expiry_due_first now pair pair' (notAfter notAfter' : time.Time) :
  tlsCertificateGetExpirationDate pair.(Certificate) = Ok notAfter ->
  tlsCertificateGetExpirationDate pair'.(Certificate) = Ok notAfter' ->
  notAfter <= notAfter' ->
  IsTLSPairShouldBeUpdated now (Some pair') = true ->
  IsTLSPairShouldBeUpdated now (Some pair) = true.
Proof.
  intros He He' Hle.
  rewrite (decision_of_expiration now pair notAfter He).
  rewrite (decision_of_expiration now pair' notAfter' He').
  rewrite !Z.ltb_lt. lia.
Qed.

(** X12.  A certificate issued for a year (365 days) is left alone for the
    first 185 days after it was issued and is due for an update from then
    on. *)
Theorem one_year_certificate_window now pair (issued notAfter : time.Time) :
  tlsCertificateGetExpirationDate pair.(Certificate) = Ok notAfter ->
  notAfter = issued + 365 * (24 * time.Hour) ->
  (IsTLSPairShouldBeUpdated now (Some pair) = false <->
   now <= issued + 185 * (24 * time.Hour)).
Proof.
  intros He ->.
  rewrite (decision_of_expiration now pair _ He), Z.ltb_ge, timeReserve_value.
  change (365 * (24 * time.Hour)) with 31536000000000000.
  change (185 * (24 * time.Hour)) with 15984000000000000.
  lia.
Qed.

End DecisionProperties.

(** ** The further properties on the sample library *)

(** Without the condition on dots, names do collide. *)
Example in_cluster_name_collision :
  Sample.dotted_service.(Service) <> Sample.dotted_namespace.(Service) /\
  GenerateInClusterServiceName Sample.dotted_service
  = GenerateInClusterServiceName Sample.dotted_namespace.
Proof. split; [discriminate|reflexivity]. Qed.

(** X5, witness: the webhook service with no API server host. *)
Lemma empty_host_becomes_dns_san_witness :
  Sample.webhook_without_host.(ApiServerHost) = "" /\
  @net_ParseIP Sample.lib "" = None /\
  (@csrTemplate Sample.lib Sample.webhook_without_host false).(x509.DNSNames)
    !! 3%nat = Some "" /\
  (@csrTemplate Sample.lib Sample.webhook_without_host false).(x509.IPAddresses)
    = [].
Proof.
  assert (Hh : Sample.webhook_without_host.(ApiServerHost) = "")
    by reflexivity.
  assert (Hp : @net_ParseIP Sample.lib "" = None) by reflexivity.
  split; [exact Hh|]. split; [exact Hp|].
  exact (@empty_host_becomes_dns_san Sample.lib
           Sample.webhook_without_host false Hh Hp).
Defined.

(** X6, witness: the webhook service under two API server hosts. *)
Lemma in_cluster_name_determines_identity_witness :
  has_dot Sample.webhook.(Service) = false /\
  has_dot Sample.webhook_by_name.(Service) = false /\
  GenerateInClusterServiceName Sample.webhook
    = GenerateInClusterServiceName Sample.webhook_by_name /\
  Sample.webhook.(Service) = Sample.webhook_by_name.(Service) /\
  Sample.webhook.(Namespace) = Sample.webhook_by_name.(Namespace).
Proof.
  assert (H1 : has_dot Sample.webhook.(Service) = false) by reflexivity.
  assert (H2 : has_dot Sample.webhook_by_name.(Service) = false)
    by reflexivity.
  assert (H : GenerateInClusterServiceName Sample.webhook
              = GenerateInClusterServiceName Sample.webhook_by_name)
    by reflexivity.
  split; [exact H1|]. split; [exact H2|]. split; [exact H|].
  exact (in_cluster_name_determines_identity
           Sample.webhook Sample.webhook_by_name H1 H2 H).
Defined.

(** X7, witness: the recorded request, asked for twice. *)
Lemma request_name_determines_identity_witness :
  exists csr csr',
    @CertificateGenerateRequest Sample.lib [] Sample.key Sample.webhook false
      = Ok csr /\
    @CertificateGenerateRequest Sample.lib [Byte.x01] Sample.key
      Sample.webhook false = Ok csr' /\
    csr.(certificates.ObjectMeta).(metav1.Name)
      = csr'.(certificates.ObjectMeta).(metav1.Name) /\
    Sample.webhook.(Service) = Sample.webhook.(Service) /\
    Sample.webhook.(Namespace) = Sample.webhook.(Namespace).
Proof.
  destruct (@CertificateGenerateRequest Sample.lib [] Sample.key
              Sample.webhook false) as [csr|err] eqn:H;
    [|vm_compute in H; discriminate H].
  destruct (@CertificateGenerateRequest Sample.lib [Byte.x01] Sample.key
              Sample.webhook false) as [csr'|err] eqn:H';
    [|vm_compute in H'; discriminate H'].
  assert (Hn : csr.(certificates.ObjectMeta).(metav1.Name)
               = csr'.(certificates.ObjectMeta).(metav1.Name)).
  { vm_compute in H, H'. injection H as <-. injection H' as <-. reflexivity. }
  exists csr, csr'. split; [reflexivity|]. split; [reflexivity|].
  split; [exact Hn|].
  exact (@request_name_determines_identity Sample.lib [] [Byte.x01]
           Sample.key Sample.key Sample.webhook Sample.webhook false false
           csr csr' eq_refl eq_refl H H' Hn).
Defined.

(** X8, witness: the recorded certificate, 179 and 100 days before it
    expires. *)
Lemma decision_monotone_in_time_witness :
  Sample.certificate_notAfter_time - 179 * Sample.day
    <= Sample.certificate_notAfter_time - 100 * Sample.day /\
  @IsTLSPairShouldBeUpdated Sample.lib
    (Sample.certificate_notAfter_time - 179 * Sample.day) (Some Sample.pair)
  = true /\
  @IsTLSPairShouldBeUpdated Sample.lib
    (Sample.certificate_notAfter_time - 100 * Sample.day) (Some Sample.pair)
  = true.
Proof.
  assert (Hle : Sample.certificate_notAfter_time - 179 * Sample.day
                <= Sample.certificate_notAfter_time - 100 * Sample.day)
    by (vm_compute; discriminate).
  assert (H : @IsTLSPairShouldBeUpdated Sample.lib
                (Sample.certificate_notAfter_time - 179 * Sample.day)
                (Some Sample.pair) = true)
    by (vm_compute; reflexivity).
  split; [exact Hle|]. split; [exact H|].
  exact (@decision_monotone_in_time Sample.lib _ _ (Some Sample.pair) Hle H).
Defined.

(** X11, witness: the recorded certificate under its right type and
    under another, 179 days before it expires. *)
Lemma earlier_expiry_due_first_witness :
  @tlsCertificateGetExpirationDate Sample.lib Sample.pair.(Certificate)
    = Ok Sample.certificate_notAfter_time /\
  @tlsCertificateGetExpirationDate Sample.lib
    Sample.mislabelled_pair.(Certificate)
    = Ok Sample.certificate_notAfter_time /\
  @IsTLSPairShouldBeUpdated Sample.lib
    (Sample.certificate_notAfter_time - 179 * Sample.day)
    (Some Sample.mislabelled_pair) = true /\
  @IsTLSPairShouldBeUpdated Sample.lib
    (Sample.certificate_notAfter_time - 179 * Sample.day)
    (Some Sample.pair) = true.
Proof.
  assert (He : @tlsCertificateGetExpirationDate Sample.lib
                 Sample.pair.(Certificate)
               = Ok Sample.certificate_notAfter_time)
    by (vm_compute; reflexivity).
  assert (He' : @tlsCertificateGetExpirationDate Sample.lib
                  Sample.mislabelled_pair.(Certificate)
                = Ok Sample.certificate_notAfter_time)
    by (vm_compute; reflexivity).
  assert (H : @IsTLSPairShouldBeUpdated Sample.lib
                (Sample.certificate_notAfter_time - 179 * Sample.day)
                (Some Sample.mislabelled_pair) = true)
    by (vm_compute; reflexivity).
  split; [exact He|]. split; [exact He'|]. split; [exact H|].
  exact (@earlier_expiry_due_first Sample.lib _ Sample.pair
           Sample.mislabelled_pair _ _ He He' (Z.le_refl _) H).
Defined.

(** X12, witness: the recorded certificate, valid from 2026-01-01 for 365
    days, on its 185th day. *)
Lemma one_year_certificate_window_witness :
  @tlsCertificateGetExpirationDate Sample.lib Sample.pair.(Certificate)
    = Ok Sample.certificate_notAfter_time /\
  Sample.certificate_notAfter_time
    = 1767225600 * time.Second + 365 * (24 * time.Hour) /\
  @IsTLSPairShouldBeUpdated Sample.lib
    (1767225600 * time.Second + 185 * (24 * time.Hour)) (Some Sample.pair)
  = false.
Proof.
  assert (He : @tlsCertificateGetExpirationDate Sample.lib
                 Sample.pair.(Certificate)
               = Ok Sample.certificate_notAfter_time)
    by (vm_compute; reflexivity).
  assert (Hy : Sample.certificate_notAfter_time
               = 1767225600 * time.Second + 365 * (24 * time.Hour))
    by reflexivity.
  split; [exact He|]. split; [exact Hy|].
  apply (@one_year_certificate_window Sample.lib
           (1767225600 * time.Second + 185 * (24 * time.Hour))
           Sample.pair (1767225600 * time.Second) _ He Hy).
  apply Z.le_refl.
Defined.

(** X10, witness: text that holds no PEM block, and a block that holds a
    key instead of a certificate. *)
Lemma expiration_error_identifies_cause_witness :
  @tlsCertificateGetExpirationDate Sample.lib
    Sample.garbage_pair.(Certificate) = Err "Failed to decode PEM" /\
  (@pem_Decode Sample.lib Sample.garbage_pair.(Certificate)).1 = None /\
  @tlsCertificateGetExpirationDate Sample.lib
    Sample.key_as_certificate_pair.(Certificate)
    = Err "Failed to parse certificate: %vx509: malformed certificate" /\
  @x509_ParseCertificate Sample.lib Sample.key_block.(pem.Bytes)
    = Err "x509: malformed certificate".
Proof.
  assert (He : @tlsCertificateGetExpirationDate Sample.lib
                 Sample.garbage_pair.(Certificate)
               = Err "Failed to decode PEM")
    by (vm_compute; reflexivity).
  assert (He' : @tlsCertificateGetExpirationDate Sample.lib
                  Sample.key_as_certificate_pair.(Certificate)
                = Err "Failed to parse certificate: %vx509: malformed certificate")
    by (vm_compute; reflexivity).
  split; [exact He|]. split.
  { apply (@expiration_error_identifies_cause Sample.lib _ _ He). reflexivity. }
  split; [exact He'|].
  apply (proj2 (proj2 (@expiration_error_identifies_cause Sample.lib _ _ He'))
           Sample.key_block "x509: malformed certificate");
    [vm_compute|]; reflexivity.
Defined.
